(** * BioPREP: the fine-tuning engine (berts.py) and the dataset loader
    (utility/simple_data_loader.py), embedded as Rocq functions.

    Conventions of the embedding.
    - A Python [int] is a [Z]; [//] and [%] are the floor division and
      modulus of [Z], with the [ZeroDivisionError] written out.
    - A Python [float] (losses, F1 scores, logits) is a rational [Q]: the
      order of finite floats is the order of the rationals they denote;
      the rounding error of float addition and division is not modelled.
    - A Python [str] is a [string] of bytes (UTF-8).
    - A call that may raise returns an [outcome]; a method of the
      classifier object is a state transformer that also returns an
      [outcome], and the state reached when an exception is raised is kept,
      as Python keeps it.
    - Writing to stdout ([print], the progress lines of the batch loops)
      is left out: it changes neither the object nor the disk. *)

From Stdlib Require Import ZArith QArith Qround List String Ascii Lia.
From stdpp Require Import base gmap strings list pretty sorting.

Local Open Scope string_scope.

(* ================================================================== *)
(** * Part I. Definitions *)
(* ================================================================== *)

(** ** Python runtime *)

(** The exceptions that the modelled code can raise. *)
Inductive exn : Type :=
| ZeroDivisionError
| ValueError (msg : string)
| AttributeError (attr : string)
| KeyError (key : string)
| OSError (path : string)
| Exception_ (msg : string).

Inductive outcome (A : Type) : Type :=
| Returned (a : A)
| Raised (e : exn).
Arguments Returned {A} a.
Arguments Raised {A} e.

Definition outcome_bind {A B : Type} (o : outcome A) (k : A -> outcome B) : outcome B :=
  match o with
  | Returned a => k a
  | Raised e => Raised e
  end.

Declare Scope outcome_scope.
Delimit Scope outcome_scope with outcome.
Notation "'let*' x ':=' e 'in' k" := (outcome_bind e (fun x => k))
  (at level 10, x name, e at level 100, k at level 200) : outcome_scope.

(** [a // b] on integers. *)
Definition py_floordiv (a b : Z) : outcome Z :=
  if (b =? 0)%Z then Raised ZeroDivisionError else Returned (a / b)%Z.

(** [a % b] on integers: the result has the sign of [b], as [Z.modulo]. *)
Definition py_mod (a b : Z) : outcome Z :=
  if (b =? 0)%Z then Raised ZeroDivisionError else Returned (a mod b)%Z.

(** [a / b] with a float [a] and an integer [b]. *)
Definition py_truediv (a : Q) (b : Z) : outcome Q :=
  if (b =? 0)%Z then Raised ZeroDivisionError else Returned (a / inject_Z b)%Q.

(** [range(lo, hi)]. *)
Definition py_range (lo hi : Z) : list Z :=
  map (fun i => (lo + Z.of_nat i)%Z) (seq 0 (Z.to_nat (hi - lo))).

(** [len(l)]. *)
Definition len {A : Type} (l : list A) : Z := Z.of_nat (length l).

(** [a > b] on floats. *)
Definition py_gt (a b : Q) : bool :=
  match Qcompare a b with Gt => true | _ => false end.

(** [str.lower()], on ASCII letters; other bytes are kept.  The only code
    point outside ASCII whose lower case is an ASCII letter is U+212A,
    which lowers to the letter k. *)
Definition ascii_lower (c : ascii) : ascii :=
  let n := nat_of_ascii c in
  if (65 <=? n)%nat && (n <=? 90)%nat then ascii_of_nat (n + 32) else c.

Fixpoint str_lower (s : string) : string :=
  match s with
  | EmptyString => EmptyString
  | String c s' => String (ascii_lower c) (str_lower s')
  end.

(** [sep.join(l)]. *)
Fixpoint str_join (sep : string) (l : list string) : string :=
  match l with
  | [] => ""
  | [x] => x
  | x :: l' => x ++ sep ++ str_join sep l'
  end.

(** [str(n)] for an integer. *)
Definition str_int (n : Z) : string := pretty n.

(** Position of the first occurrence of [x] in [l]. *)
Fixpoint index_of (x : string) (l : list string) : option nat :=
  match l with
  | [] => None
  | y :: l' => if String.eqb x y then Some 0%nat else S <$> index_of x l'
  end.

(** ** pandas and scikit-learn, as far as the loader uses them *)

(** A data frame whose cells are strings: the column names and the rows,
    each row holding one cell per column. *)
Record DataFrame : Type := {
  df_columns : list string;
  df_rows : list (list string)
}.

(** [df.name]: the column as a sequence of cells. *)
Definition df_getattr (df : DataFrame) (name : string) : outcome (list string) :=
  match index_of name (df_columns df) with
  | Some j => Returned (map (fun r => nth j r "") (df_rows df))
  | None => Raised (AttributeError name)
  end.

(** [row[name]] for a row yielded by [df.iterrows()]. *)
Definition row_getitem (df : DataFrame) (row : list string) (name : string) : outcome string :=
  match index_of name (df_columns df) with
  | Some j => Returned (nth j row "")
  | None => Raised (KeyError name)
  end.

Definition str_le (a b : string) : Prop := String.leb a b = true.

#[global] Instance str_le_dec (a b : string) : Decision (str_le a b).
Proof. unfold str_le. apply _. Defined.

(** [LabelEncoder.classes_] after fitting: the distinct values, sorted. *)
Definition np_unique (col : list string) : list string :=
  merge_sort str_le (remove_dups col).

(** [LabelEncoder().fit_transform(col)]: each value is replaced by its
    position among the sorted distinct values. *)
Definition fit_transform (col : list string) : list Z :=
  map (fun x => Z.of_nat (default 0%nat (index_of x (np_unique col)))) col.

(** [Series.nunique()]. *)
Definition nunique (col : list string) : Z := len (remove_dups col).

(** ** utility/simple_data_loader.py *)

Section simple_data_loader.

(** [pd.read_csv]: the parsed file, or the exception raised for a path
    that cannot be read. *)
Variable read_csv : string -> outcome DataFrame.

Local Open Scope outcome_scope.

Definition LABEL_TYPE_message : string :=
  "Argument LABEL_TYPE should be selected between predicate and framenet.".

(** The [for idx, row in df.iterrows()] loops of [load_csv_dataset]. *)
Fixpoint text_label_rows (df : DataFrame) (answer : string) (rows : list (list string))
  : outcome (list (string * string)) :=
  match rows with
  | [] => Returned []
  | row :: rows' =>
      let* text := row_getitem df row "text" in
      let* label := row_getitem df row answer in
      let* rest := text_label_rows df answer rows' in
      Returned ((text, label) :: rest)
  end.

Definition load_csv_dataset (data_file_path label_type : string)
  : outcome (list (string * string)) :=
  let* df := read_csv data_file_path in
  if String.eqb (str_lower label_type) "predicate" then
    text_label_rows df "predicate_answer" (df_rows df)
  else if String.eqb (str_lower label_type) "framenet" then
    text_label_rows df "framenet_answer" (df_rows df)
  else Raised (Exception_ LABEL_TYPE_message).

Definition load_bert_data (data_file_path label_type : string)
  : outcome (list string * list Z * Z) :=
  let* df := read_csv data_file_path in
  let* X := df_getattr df "text" in
  if String.eqb (str_lower label_type) "predicate" then
    let* col := df_getattr df "predicate_answer" in
    let y := fit_transform col in
    let* col' := df_getattr df "predicate_answer" in
    let num_classes := nunique col' in
    Returned (X, y, num_classes)
  else if String.eqb (str_lower label_type) "framenet" then
    let* col := df_getattr df "framenet_answer" in
    let y := fit_transform col in
    let* col' := df_getattr df "framenet_answer" in
    let num_classes := nunique col' in
    Returned (X, y, num_classes)
  else Raised (Exception_ LABEL_TYPE_message).

End simple_data_loader.

(** A disk with one data file, for concrete runs of the loader. *)
Definition sample_frame : DataFrame := {|
  df_columns := ["text"; "predicate_answer"; "framenet_answer"];
  df_rows := [ ["aspirin inhibits cox"; "INHIBITS"; "Hindering"];
               ["p53 causes apoptosis"; "CAUSES"; "Causation"];
               ["statins inhibit hmg"; "INHIBITS"; "Hindering"] ]
|}.

Definition sample_disk (path : string) : outcome DataFrame :=
  if String.eqb path "train.csv" then Returned sample_frame else Raised (OSError path).

(** ** numpy, torch and the file system, as far as berts.py uses them *)

(** [np.concatenate(arrays, axis=0)]: the arrays one after the other; an
    empty list of arrays is refused.  A two-dimensional array is the list
    of its rows. *)
Definition np_concatenate {A : Type} (arrays : list (list A)) : outcome (list A) :=
  match arrays with
  | [] => Raised (ValueError "need at least one array to concatenate")
  | _ :: _ => Returned (concat arrays)
  end.

(** Index of the first maximum of [x :: row], where [best] at index [ibest]
    is the maximum of the elements seen so far and [i] is the index of the
    head of [row]. *)
Fixpoint argmax_from (best : Q) (ibest i : Z) (row : list Q) : Z :=
  match row with
  | [] => ibest
  | x :: row' =>
      if py_gt x best then argmax_from x i (i + 1)%Z row'
      else argmax_from best ibest (i + 1)%Z row'
  end.

(** [np.argmax] of one row. *)
Definition np_argmax (row : list Q) : outcome Z :=
  match row with
  | [] => Raised (ValueError "attempt to get argmax of an empty sequence")
  | x :: row' => Returned (argmax_from x 0%Z 1%Z row')
  end.

(** [np.argmax(a, axis=1).flatten()]. *)
Fixpoint np_argmax_axis1 (a : list (list Q)) : outcome (list Z) :=
  match a with
  | [] => Returned []
  | row :: a' =>
      (let* i := np_argmax row in
       let* rest := np_argmax_axis1 a' in
       Returned (i :: rest))%outcome
  end.

(** The metrics of scikit-learn refuse label sequences of different
    lengths. *)
Definition check_consistent_length (y_true y_pred : list Z) : outcome unit :=
  if (length y_true =? length y_pred)%nat then Returned tt
  else Raised (ValueError "Found input variables with inconsistent numbers of samples").

(** [round(x, ndigits)]: to the nearest multiple of [10^-ndigits], a tie
    going to the even one. *)
Definition py_round (x : Q) (ndigits : nat) : Q :=
  let scale := (10 ^ Z.of_nat ndigits)%Z in
  let scaled := (x * inject_Z scale)%Q in
  let lo := Qfloor scaled in
  let n :=
    match Qcompare (scaled - inject_Z lo) (1 # 2) with
    | Lt => lo
    | Gt => (lo + 1)%Z
    | Eq => if Z.even lo then lo else (lo + 1)%Z
    end in
  (inject_Z n / inject_Z scale)%Q.

(** [os.path.join(a, b)]. *)
Definition os_path_join (a b : string) : string :=
  if String.prefix "/" b then b
  else if String.eqb a "" then b
  else if String.eqb (String.substring (String.length a - 1) 1 a) "/" then a ++ b
  else a ++ "/" ++ b.

(** One batch of the batch source: the three lists it returns are aligned,
    and are kept here as one list of batches. *)
Record Batch (Tensor : Type) : Type := {
  b_input_ids : Tensor;
  b_input_mask : Tensor;
  b_labels : list Z
}.
Arguments b_input_ids {Tensor} b.
Arguments b_input_mask {Tensor} b.
Arguments b_labels {Tensor} b.

(** The linear schedule: the two step counts it is created with and the
    number of [step()] calls so far. *)
Record Scheduler : Type := {
  num_warmup_steps : Z;
  num_training_steps : Z;
  last_epoch : Z
}.

Definition get_linear_schedule_with_warmup (warmup total : Z) : Scheduler :=
  {| num_warmup_steps := warmup; num_training_steps := total; last_epoch := 0 |}.

Definition scheduler_step (sch : Scheduler) : Scheduler :=
  {| num_warmup_steps := num_warmup_steps sch;
     num_training_steps := num_training_steps sch;
     last_epoch := (last_epoch sch + 1)%Z |}.

(** What berts.py imports and does not define: the batch source
    (utility.smart_batch), the network and its optimizer (transformers,
    torch, utility.bert_utils), the metric (sklearn), the wall clock and the
    text of a float. *)
Class Backend : Type := {
  (** weights of [self.model] *)
  Net : Type;
  (** moments and learning rate of the optimizer *)
  Optim : Type;
  Tensor : Type;
  (** state of the random generator the batch source draws from *)
  Rng : Type;
  Time : Type;
  get_model : string -> Z -> Net;
  (** [make_smart_batches(tokenizer, max_len, text_samples, labels, batch_size)] *)
  make_smart_batches :
    Rng -> option Z -> list string -> option (list Z) -> option Z -> list (Batch Tensor) * Rng;
  (** the loss and the logits of [self.model(ids, attention_mask=mask, labels=labels)];
      the flag tells whether the network is in training mode ([model.train()])
      or in evaluation mode ([model.eval()]) *)
  model_loss : bool -> Net -> Tensor -> Tensor -> list Z -> Q;
  model_logits : bool -> Net -> Tensor -> Tensor -> list (list Q);
  AdamW : Net -> Q -> Q -> Optim;
  (** [loss.backward()], [clip_grad_norm_(..., 1.0)] and [optimizer.step()] on one batch *)
  optimizer_step : Net -> Optim -> Batch Tensor -> Net * Optim;
  (** the learning rate that [scheduler.step()] writes into the optimizer *)
  set_lr : Optim -> Scheduler -> Optim;
  load_model : Net -> string -> Net;
  (** [precision_recall_fscore_support(true_labels, preds, average='weighted')[2]] *)
  weighted_f1 : list Z -> list Z -> Q;
  strftime : string -> Time -> string;
  (** the passing of time while one batch is processed *)
  elapse : Time -> Time;
  (** [str(x)] for a float *)
  str_float : Q -> string
}.

(** ** berts.py: the object, the disk and the state *)

Section berts.

Context `{B : Backend}.

(** The attributes of a [BERT_for_classification] object.  [scheduler],
    [true_labels], [predictions] and [preds] do not exist until [fit]
    or [eval] assigns them: [None] stands for a missing attribute.  The
    other optional ones are assigned [None] by [__init__]. *)
Record BERT_for_classification : Type := {
  model_name : string;
  model : Net;
  batch_size : option Z;
  epochs : option Z;
  max_len : option Z;
  optimizer : option Optim;
  test_size : option Q;
  seed : option Z;
  scheduler : option Scheduler;
  true_labels : option (list Z);
  predictions : option (list (list Q));
  preds : option (list Z)
}.

(** [__init__(self, model_name, num_labels)]. *)
Definition init (name : string) (num_labels : Z) : BERT_for_classification :=
  {| model_name := name; model := get_model name num_labels;
     batch_size := None; epochs := None; max_len := None; optimizer := None;
     test_size := None; seed := None;
     scheduler := None; true_labels := None; predictions := None; preds := None |}.

(** A file on disk: a checkpoint written by [torch.save], the
    classification report (a function of the labels and predictions it
    is computed from), or the prediction table. *)
Inductive File : Type :=
| Checkpoint (model_state : Net) (optimizer_state : Optim) (scheduler_state : Scheduler)
| ReportCsv (labels predicted : list Z)
| PredictionCsv (header : list string) (rows : list (string * Z)).

(** One entry of [training_stats] (the wall-clock text is left out). *)
Record EpochRecord : Type := {
  er_epoch : Z;
  er_training_loss : Q
}.

(** Entries of the call log, which records the order in which [fit]
    enters [train] and [eval]; the code has no such log. *)
Inductive Call : Type :=
| CallTrain (epoch_i : Z)
| CallEval (epoch_i : Z).

(** The object, the three lists that [fit] creates and hands to [train]
    and [eval] by reference, and the environment. *)
Record State : Type := {
  self : BERT_for_classification;
  training_stats : list EpochRecord;
  train_loss : list Q;
  val_loss : list Q;
  rng : Rng;
  clock : Time;
  dirs : gset string;
  files : gmap string File;
  calls : list Call
}.

Definition with_self (f : BERT_for_classification -> BERT_for_classification) (s : State) : State :=
  {| self := f (self s); training_stats := training_stats s; train_loss := train_loss s;
     val_loss := val_loss s; rng := rng s; clock := clock s; dirs := dirs s;
     files := files s; calls := calls s |}.

Definition with_lists (ts : list EpochRecord) (tl vl : list Q) (s : State) : State :=
  {| self := self s; training_stats := ts; train_loss := tl;
     val_loss := vl; rng := rng s; clock := clock s; dirs := dirs s;
     files := files s; calls := calls s |}.

Definition with_rng (r : Rng) (s : State) : State :=
  {| self := self s; training_stats := training_stats s; train_loss := train_loss s;
     val_loss := val_loss s; rng := r; clock := clock s; dirs := dirs s;
     files := files s; calls := calls s |}.

Definition with_clock (t : Time) (s : State) : State :=
  {| self := self s; training_stats := training_stats s; train_loss := train_loss s;
     val_loss := val_loss s; rng := rng s; clock := t; dirs := dirs s;
     files := files s; calls := calls s |}.

Definition with_dirs (d : gset string) (s : State) : State :=
  {| self := self s; training_stats := training_stats s; train_loss := train_loss s;
     val_loss := val_loss s; rng := rng s; clock := clock s; dirs := d;
     files := files s; calls := calls s |}.

Definition with_files (fs : gmap string File) (s : State) : State :=
  {| self := self s; training_stats := training_stats s; train_loss := train_loss s;
     val_loss := val_loss s; rng := rng s; clock := clock s; dirs := dirs s;
     files := fs; calls := calls s |}.

Definition with_calls (cs : list Call) (s : State) : State :=
  {| self := self s; training_stats := training_stats s; train_loss := train_loss s;
     val_loss := val_loss s; rng := rng s; clock := clock s; dirs := dirs s;
     files := files s; calls := cs |}.

(** Assignments to attributes of [self]. *)
Definition set_config (bs ep ml : Z) (opt : Optim) (ts : Q) (sd : Z)
    (o : BERT_for_classification) : BERT_for_classification :=
  {| model_name := model_name o; model := model o;
     batch_size := Some bs; epochs := Some ep; max_len := Some ml; optimizer := Some opt;
     test_size := Some ts; seed := Some sd;
     scheduler := scheduler o; true_labels := true_labels o;
     predictions := predictions o; preds := preds o |}.

Definition set_model (n : Net) (o : BERT_for_classification) : BERT_for_classification :=
  {| model_name := model_name o; model := n;
     batch_size := batch_size o; epochs := epochs o; max_len := max_len o;
     optimizer := optimizer o; test_size := test_size o; seed := seed o;
     scheduler := scheduler o; true_labels := true_labels o;
     predictions := predictions o; preds := preds o |}.

Definition set_optimizer (opt : Optim) (o : BERT_for_classification) : BERT_for_classification :=
  {| model_name := model_name o; model := model o;
     batch_size := batch_size o; epochs := epochs o; max_len := max_len o;
     optimizer := Some opt; test_size := test_size o; seed := seed o;
     scheduler := scheduler o; true_labels := true_labels o;
     predictions := predictions o; preds := preds o |}.

Definition set_scheduler (sch : Scheduler) (o : BERT_for_classification) : BERT_for_classification :=
  {| model_name := model_name o; model := model o;
     batch_size := batch_size o; epochs := epochs o; max_len := max_len o;
     optimizer := optimizer o; test_size := test_size o; seed := seed o;
     scheduler := Some sch; true_labels := true_labels o;
     predictions := predictions o; preds := preds o |}.

Definition set_true_labels (l : list Z) (o : BERT_for_classification) : BERT_for_classification :=
  {| model_name := model_name o; model := model o;
     batch_size := batch_size o; epochs := epochs o; max_len := max_len o;
     optimizer := optimizer o; test_size := test_size o; seed := seed o;
     scheduler := scheduler o; true_labels := Some l;
     predictions := predictions o; preds := preds o |}.

Definition set_predictions (a : list (list Q)) (o : BERT_for_classification) : BERT_for_classification :=
  {| model_name := model_name o; model := model o;
     batch_size := batch_size o; epochs := epochs o; max_len := max_len o;
     optimizer := optimizer o; test_size := test_size o; seed := seed o;
     scheduler := scheduler o; true_labels := true_labels o;
     predictions := Some a; preds := preds o |}.

Definition set_preds (l : list Z) (o : BERT_for_classification) : BERT_for_classification :=
  {| model_name := model_name o; model := model o;
     batch_size := batch_size o; epochs := epochs o; max_len := max_len o;
     optimizer := optimizer o; test_size := test_size o; seed := seed o;
     scheduler := scheduler o; true_labels := true_labels o;
     predictions := predictions o; preds := Some l |}.

(** ** Methods as state transformers that may raise *)

Definition M (A : Type) : Type := State -> outcome A * State.

Definition ret {A : Type} (a : A) : M A := fun s => (Returned a, s).

Definition raise {A : Type} (e : exn) : M A := fun s => (Raised e, s).

Definition bind {A C : Type} (m : M A) (k : A -> M C) : M C :=
  fun s =>
    match m s with
    | (Returned a, s') => k a s'
    | (Raised e, s') => (Raised e, s')
    end.

Definition get : M State := fun s => (Returned s, s).

Definition modify (f : State -> State) : M unit := fun s => (Returned tt, f s).

Definition lift {A : Type} (o : outcome A) : M A := fun s => (o, s).

End berts.

Declare Scope py_scope.
Delimit Scope py_scope with py.
Notation "'let*' x ':=' e 'in' k" := (bind e (fun x => k))
  (at level 10, x name, e at level 100, k at level 200) : py_scope.
Notation "'let*' ' p ':=' e 'in' k" := (bind e (fun x => match x with p => k end))
  (at level 10, p pattern, e at level 100, k at level 200) : py_scope.
Notation "e ';;' k" := (bind e (fun _ => k))
  (at level 100, k at level 200, right associativity) : py_scope.

(** ** berts.py: the methods *)

Section methods.

Context `{B : Backend}.

Local Open Scope py_scope.

(** A [for] loop over [l] whose body updates the local variables [acc]. *)
Fixpoint for_fold {A S : Type} (l : list A) (acc : S) (body : S -> A -> M S) : M S :=
  match l with
  | [] => ret acc
  | x :: l' => let* acc' := body acc x in for_fold l' acc' body
  end.

(** Reading an attribute of [self] whose value is then used as an
    object: a missing attribute, or one that holds [None], raises. *)
Definition getattr {A : Type} (proj : BERT_for_classification -> option A) (name : string) : M A :=
  let* s := get in
  match proj (self s) with
  | Some a => ret a
  | None => raise (AttributeError name)
  end.

Definition smart_batches (ml : option Z) (X : list string) (y : option (list Z)) (bs : option Z)
  : M (list (Batch Tensor)) :=
  let* s := get in
  let '(py_inputs, r) := make_smart_batches (rng s) ml X y bs in
  modify (with_rng r) ;;
  ret py_inputs.

Definition os_path_exists (path : string) (s : State) : bool :=
  bool_decide (path ∈ dirs s) || bool_decide (is_Some (files s !! path)).

(** [if not os.path.exists(path): os.mkdir(path)]. *)
Definition mkdir_if_missing (path : string) : M unit :=
  let* s := get in
  if os_path_exists path s then ret tt
  else modify (with_dirs ({[ path ]} ∪ dirs s)).

(** [torch.save] and [DataFrame.to_csv]: the file is created or replaced. *)
Definition write_file (path : string) (f : File) : M unit :=
  modify (fun s => with_files (<[ path := f ]> (files s)) s).

Definition tick : M unit := modify (fun s => with_clock (elapse (clock s)) s).

(** *** train (lines 93-190) *)

(** The body of the batch loop, lines 137-169; [total_train_loss] is the
    local variable it adds to. *)
Definition train_batch (total_train_loss : Q) (b : Batch Tensor) : M Q :=
  let* s := get in
  let loss :=
    model_loss true (model (self s)) (b_input_ids b) (b_input_mask b) (b_labels b) in
  let total_train_loss := (total_train_loss + loss)%Q in
  let* opt := getattr optimizer "step" in
  let '(net', opt') := optimizer_step (model (self s)) opt b in
  modify (with_self (fun o => set_optimizer opt' (set_model net' o))) ;;
  let* sch := getattr scheduler "scheduler" in
  let sch' := scheduler_step sch in
  modify (with_self (fun o => set_optimizer (set_lr opt' sch') (set_scheduler sch' o))) ;;
  tick ;;
  ret total_train_loss.

(** [train(self, X, y, update_interval, epoch_i, training_stats, train_loss)].
    The two lists are the ones of the state; [update_interval] only
    paces the progress lines.  The method returns [self.model], which
    [fit] assigns back to [self.model]. *)
Definition train (X : list string) (y : list Z) (epoch_i : Z) : M unit :=
  modify (fun s => with_calls (calls s ++ [CallTrain epoch_i])%list s) ;;
  let* s := get in
  let* py_inputs := smart_batches (max_len (self s)) X (Some y) (batch_size (self s)) in
  let* total_train_loss := for_fold py_inputs 0%Q train_batch in
  let* avg_train_loss := lift (py_truediv total_train_loss (len py_inputs)) in
  modify (fun s => with_lists (training_stats s) (train_loss s ++ [avg_train_loss])%list (val_loss s) s) ;;
  modify (fun s =>
    with_lists
      (training_stats s ++ [ {| er_epoch := epoch_i; er_training_loss := avg_train_loss |} ])%list
      (train_loss s) (val_loss s) s) ;;
  ret tt.

(** *** eval (lines 192-303) *)

(** The body of the batch loop, lines 238-259, on the local variables
    [total_val_loss], [predictions] and [true_labels]. *)
Definition eval_batch (acc : Q * list (list (list Q)) * list (list Z)) (b : Batch Tensor)
  : M (Q * list (list (list Q)) * list (list Z)) :=
  let '(total_val_loss, predictions, true_labels) := acc in
  let* s := get in
  let loss :=
    model_loss false (model (self s)) (b_input_ids b) (b_input_mask b) (b_labels b) in
  let logits := model_logits false (model (self s)) (b_input_ids b) (b_input_mask b) in
  let total_val_loss := (total_val_loss + loss)%Q in
  let label_ids := b_labels b in
  tick ;;
  ret (total_val_loss, (predictions ++ [logits])%list, (true_labels ++ [label_ids])%list).

(** The path of lines 300-301:
    [os.path.join(model_dir, '_'.join([self.model_name, now, 'EPOCH',
    str(epoch_i), 'F1', str(round(f1, 4))]) + '.pth')]. *)
Definition checkpoint_path (model_dir name now : string) (epoch_i : Z) (f1 : Q) : string :=
  os_path_join model_dir
    (str_join "_" [name; now; "EPOCH"; str_int epoch_i; "F1"; str_float (py_round f1 4)]
       ++ ".pth").

(** [eval(self, X, y, epoch_i, val_loss, best_score)].  [best_score] is
    a parameter bound to a number: the assignment of line 290 binds the
    parameter anew inside [eval], and [eval] returns [None]. *)
Definition eval (X : list string) (y : list Z) (epoch_i : Z) (best_score : Q) : M unit :=
  modify (fun s => with_calls (calls s ++ [CallEval epoch_i])%list s) ;;
  let* s := get in
  let* py_inputs := smart_batches (max_len (self s)) X (Some y) (batch_size (self s)) in
  let* '(total_val_loss, predictions, true_labels) :=
    for_fold py_inputs (0%Q, [], []) eval_batch in
  let* avg_val_loss := lift (py_truediv total_val_loss (len py_inputs)) in
  modify (fun s => with_lists (training_stats s) (train_loss s) (val_loss s ++ [avg_val_loss])%list s) ;;
  let* predictions := lift (np_concatenate predictions) in
  let* true_labels := lift (np_concatenate true_labels) in
  modify (with_self (set_true_labels true_labels)) ;;
  modify (with_self (set_predictions predictions)) ;;
  let* preds := lift (np_argmax_axis1 predictions) in
  modify (with_self (set_preds preds)) ;;
  lift (check_consistent_length true_labels preds) ;;
  let f1 := weighted_f1 true_labels preds in
  mkdir_if_missing "./models_BERT" ;;
  if py_gt f1 best_score then
    let best_score := f1 in
    let model_dir := "./models_BERT" in
    let* s := get in
    let* opt := getattr optimizer "state_dict" in
    let* sch := getattr scheduler "scheduler" in
    let now := strftime "%m_%d_%H_%M" (clock s) in
    write_file (checkpoint_path model_dir (model_name (self s)) now epoch_i f1)
               (Checkpoint (model (self s)) opt sch)
  else ret tt.

(** *** fit (lines 32-90) *)

(** Lines 36-71: the configuration is stored, the scheduler is created
    and the three lists are allocated. *)
Definition fit_configure (X_train : list string)
    (batch_size epochs max_len : Z) (test_size : Q) (seed : Z) (lr eps : Q) : M unit :=
  let* s := get in
  modify (with_self
            (set_config batch_size epochs max_len (AdamW (model (self s)) lr eps) test_size seed)) ;;
  let* q := lift (py_floordiv (len X_train) batch_size) in
  let batches := (q + 1)%Z in
  let total_steps := (batches * epochs)%Z in
  modify (with_self (set_scheduler (get_linear_schedule_with_warmup 0 total_steps))) ;;
  modify (with_lists [] [] []).

(** Lines 75-79, the body of the epoch loop.  [best_score] is the local
    variable of [fit]; the value returned is that variable after the
    iteration. *)
Definition fit_epoch (X_train : list string) (y_train : list Z)
    (X_test : list string) (y_test : list Z) (eval_interval : Z)
    (best_score : Q) (epoch_i : Z) : M Q :=
  train X_train y_train epoch_i ;;
  let* r := lift (py_mod epoch_i eval_interval) in
  if (r =? 0)%Z then
    eval X_test y_test epoch_i best_score ;;
    ret best_score
  else ret best_score.

Definition str_attr_int (v : option Z) : string :=
  match v with
  | Some n => str_int n
  | None => "None"
  end.

(** Lines 84-88: the classification report. *)
Definition fit_report : M unit :=
  let* labels := getattr true_labels "true_labels" in
  let* predicted := getattr preds "preds" in
  lift (check_consistent_length labels predicted) ;;
  mkdir_if_missing "./results" ;;
  let* s := get in
  write_file
    ("./results/" ++ model_name (self s) ++ "_epochs" ++ str_attr_int (epochs (self s))
       ++ "_clf_report.csv")
    (ReportCsv labels predicted).

Definition fit (train_data test_data : list string * list Z)
    (batch_size epochs max_len : Z) (test_size : Q) (seed : Z) (lr eps : Q)
    (eval_interval : Z) : M unit :=
  let '(X_train, y_train) := train_data in
  let '(X_test, y_test) := test_data in
  fit_configure X_train batch_size epochs max_len test_size seed lr eps ;;
  let best_score := 0%Q in
  let* _ := for_fold (py_range 1 (epochs + 1)) best_score
              (fit_epoch X_train y_train X_test y_test eval_interval) in
  fit_report.

(** *** pred (lines 312-391) *)

Definition pred_batch (model : Net) (predictions : list (list (list Q))) (b : Batch Tensor)
  : M (list (list (list Q))) :=
  let logits := model_logits false model (b_input_ids b) (b_input_mask b) in
  tick ;;
  ret (predictions ++ [logits])%list.

(** [pd.DataFrame({'text': X, 'prediction': preds})]. *)
Definition prediction_frame (X : list string) (preds : list Z) : outcome (list (string * Z)) :=
  if (length X =? length preds)%nat then Returned (zip X preds)
  else Raised (ValueError "All arrays must be of the same length").

Definition pred (X : list string) (model_file_name model_type : string)
    (batch_size max_len : Z) : M (list (list Q)) :=
  let* s := get in
  let model := load_model (model (self s)) model_file_name in
  let* py_inputs := smart_batches (Some max_len) X None (Some batch_size) in
  let* predictions := for_fold py_inputs [] (pred_batch model) in
  let* predictions := lift (np_concatenate predictions) in
  let* preds := lift (np_argmax_axis1 predictions) in
  let* df_preds := lift (prediction_frame X preds) in
  mkdir_if_missing "./prediction" ;;
  let* s := get in
  let today := strftime "%y%m%d" (clock s) in
  let prediction_path := "./prediction/" ++ model_type ++ "_" ++ today ++ ".csv" in
  write_file prediction_path (PredictionCsv ["text"; "prediction"] df_preds) ;;
  ret predictions.

End methods.

(** ** Reference notions the properties are stated with *)

(** Sum and simple mean of a list of numbers. *)
Definition Qsum (l : list Q) : Q := fold_right Qplus 0%Q l.

Definition mean (l : list Q) : Q := (Qsum l / inject_Z (len l))%Q.

Section reference.

Context `{B : Backend}.

(** The loss of each batch of one training pass, in batch order: the
    weights, the optimizer and the scheduler move on after every batch. *)
Fixpoint train_batch_losses (net : Net) (opt : Optim) (sch : Scheduler)
    (py_inputs : list (Batch Tensor)) : list Q :=
  match py_inputs with
  | [] => []
  | b :: rest =>
      let loss := model_loss true net (b_input_ids b) (b_input_mask b) (b_labels b) in
      let '(net', opt') := optimizer_step net opt b in
      let sch' := scheduler_step sch in
      loss :: train_batch_losses net' (set_lr opt' sch') sch' rest
  end.

(** The loss, the logits and the labels of each batch of one evaluation. *)
Definition eval_batch_losses (net : Net) (py_inputs : list (Batch Tensor)) : list Q :=
  map (fun b => model_loss false net (b_input_ids b) (b_input_mask b) (b_labels b)) py_inputs.

Definition eval_batch_logits (net : Net) (py_inputs : list (Batch Tensor))
  : list (list (list Q)) :=
  map (fun b => model_logits false net (b_input_ids b) (b_input_mask b)) py_inputs.

Definition eval_batch_labels (py_inputs : list (Batch Tensor)) : list (list Z) :=
  map b_labels py_inputs.

(** The calls one epoch is expected to make, and the calls of a whole
    [fit]: [train] for every epoch index from 1 to [epochs], followed at
    once by [eval] when the index is a multiple of [eval_interval]. *)
Definition epoch_calls (eval_interval epoch_i : Z) : list Call :=
  CallTrain epoch_i ::
  (if (epoch_i mod eval_interval =? 0)%Z then [CallEval epoch_i] else []).



Definition is_eval (c : Call) : bool :=
  match c with CallEval _ => true | CallTrain _ => false end.

(** What a file on disk is: a checkpoint, or a report with the labels
    and predictions it was computed from. *)
Definition is_checkpoint (f : File) : bool :=
  match f with Checkpoint _ _ _ => true | _ => false end.

Definition report_of (f : File) : option (list Z * list Z) :=
  match f with ReportCsv labels predicted => Some (labels, predicted) | _ => None end.

(** The collaborators give a training pass nothing to fail on: the
    batch source yields at least one batch for the data. *)
Definition trainable (max_len batch_size : Z) (X : list string) (y : list Z) : Prop :=
  forall r, fst (make_smart_batches r (Some max_len) X (Some y) (Some batch_size)) <> [].

(** The collaborators give an evaluation nothing to fail on: the batch
    source yields at least one batch, the network returns one score row
    per label of a batch, and no score row is empty. *)
Definition evaluable (max_len batch_size : Z) (X : list string) (y : list Z) : Prop :=
  (forall r, fst (make_smart_batches r (Some max_len) X (Some y) (Some batch_size)) <> [])
  /\ (forall r net,
        Forall (fun b => length (model_logits false net (b_input_ids b) (b_input_mask b))
                         = length (b_labels b))
               (fst (make_smart_batches r (Some max_len) X (Some y) (Some batch_size))))
  /\ (forall net ids mask, Forall (fun row => row <> []) (model_logits false net ids mask)).

(** [fit] has assigned the optimizer and the scheduler. *)
Definition ready (s : State) : Prop :=
  is_Some (optimizer (self s)) /\ is_Some (scheduler (self s)).

(** The configuration that [fit] stored is the same in both states. *)
Definition same_config (s s' : State) : Prop :=
  model_name (self s') = model_name (self s) /\
  batch_size (self s') = batch_size (self s) /\
  epochs (self s') = epochs (self s) /\
  max_len (self s') = max_len (self s).

(** The results of the last evaluation are the same in both states. *)
Definition same_results (s s' : State) : Prop :=
  true_labels (self s') = true_labels (self s) /\
  predictions (self s') = predictions (self s) /\
  preds (self s') = preds (self s).

Definition same_disk (s s' : State) : Prop :=
  dirs s' = dirs s /\ files s' = files s.

(** The three lists of [fit] are the same in both states. *)
Definition same_lists (s s' : State) : Prop :=
  training_stats s' = training_stats s /\
  train_loss s' = train_loss s /\
  val_loss s' = val_loss s.

(** Nothing but the weights, the optimizer, the scheduler and the clock
    differs between the two states. *)
Definition same_but_learner (s s' : State) : Prop :=
  same_config s s' /\ same_results s s' /\ same_disk s s' /\ same_lists s s' /\
  calls s' = calls s /\ rng s' = rng s.

End reference.

(** [k] is the index of the first maximum of [row]. *)
Definition first_argmax (row : list Q) (k : Z) : Prop :=
  exists v,
    (0 <= k)%Z /\ row !! Z.to_nat k = Some v /\
    forall j w, row !! j = Some w ->
      (w <= v)%Q /\ ((j < Z.to_nat k)%nat -> (w < v)%Q).

(** ** A small concrete backend, for running the methods on examples *)

(** Weighted F1 as scikit-learn computes it: the F1 of each class,
    [2 tp / (2 tp + fp + fn)] (0 when the class is neither present nor
    predicted), averaged with the class's number of true labels as weight. *)
Definition count_pairs (f : Z -> Z -> bool) (t p : list Z) : Z :=
  len (filter (fun ab => f (fst ab) (snd ab) = true) (zip t p)).

Definition class_f1 (c : Z) (t p : list Z) : Q :=
  let tp := count_pairs (fun a b => (a =? c)%Z && (b =? c)%Z) t p in
  let fp := count_pairs (fun a b => negb (a =? c)%Z && (b =? c)%Z) t p in
  let fn := count_pairs (fun a b => (a =? c)%Z && negb (b =? c)%Z) t p in
  match (2 * tp + fp + fn)%Z with
  | Z.pos d => (2 * tp)%Z # d
  | _ => 0%Q
  end.

Definition sk_weighted_f1 (t p : list Z) : Q :=
  let classes := remove_dups (t ++ p)%list in
  let weighted c := (inject_Z (count_pairs (fun a _ => (a =? c)%Z) t t) * class_f1 c t p)%Q in
  match len t with
  | Z.pos n => Qred (Qsum (map weighted classes) / inject_Z (Z.pos n))
  | _ => 0%Q
  end.

(** The decimal text of a non-negative number with at most four decimals,
    as [str] prints such a float: [1.0], [0.3333], [0.5]. *)
Fixpoint strip_zeros (digits : list ascii) : list ascii :=
  match digits with
  | [] => []
  | d :: rest =>
      match strip_zeros rest with
      | [] => if Ascii.eqb d "0"%char then [] else [d]
      | kept => d :: kept
      end
  end.

Definition pad (width : nat) (n : Z) : string :=
  let s := pretty n in
  String.substring 0 (width - String.length s) "0000" ++ s.

Definition str_decimal4 (x : Q) : string :=
  let n := Qfloor (x * 10000 + (1 # 2))%Q in
  let frac := strip_zeros (list_ascii_of_string (pad 4 (n mod 10000)%Z)) in
  pretty (n / 10000)%Z ++ "." ++
  match frac with
  | [] => "0"
  | _ => string_of_list_ascii frac
  end.

(** Modelled from the spec: utility/smart_batch.py is not among the
    sources.  The spec describes the batch source as yielding an ordered
    sequence of aligned (input, attention-mask, label) batches, a batch
    being a fixed-size group.  Here the texts are grouped in their given
    order, [batch_size] at a time, the last group holding the rest. *)
Fixpoint chunks {A : Type} (fuel n : nat) (l : list A) : list (list A) :=
  match fuel with
  | O => []
  | S fuel' =>
      match l with
      | [] => []
      | _ :: _ => take n l :: chunks fuel' n (drop n l)
      end
  end.

Definition toy_batches (X : list string) (y : option (list Z)) (batch_size : option Z)
  : list (Batch (list string)) :=
  let n := Nat.max 1 (Z.to_nat (default 1%Z batch_size)) in
  let xs := chunks (length X) n X in
  let ys := chunks (length X) n (default [] y) in
  map (fun i => {| b_input_ids := default [] (xs !! i);
                   b_input_mask := default [] (xs !! i);
                   b_labels := default [] (ys !! i) |})
      (seq 0 (length xs)).

(** A two-class toy network: its weights are the number of optimizer
    steps taken.  After one step it tells the text [positive] from the
    others; after more steps it answers class 0 for every text. *)
Definition toy_logits (net : nat) (text : string) : list Q :=
  match net with
  | 1%nat => if String.eqb text "positive" then [0%Q; 1%Q] else [1%Q; 0%Q]
  | _ => [1%Q; 0%Q]
  end.

#[export] Instance toy : Backend := {|
  Net := nat;
  Optim := unit;
  Tensor := list string;
  Rng := unit;
  Time := nat;
  get_model := fun _ _ => 0%nat;
  make_smart_batches := fun r _ X y bs => (toy_batches X y bs, r);
  model_loss := fun _ net _ _ _ => 1 # Pos.of_succ_nat net;
  model_logits := fun _ net ids _ => map (toy_logits net) ids;
  AdamW := fun _ _ _ => tt;
  optimizer_step := fun net opt _ => (S net, opt);
  set_lr := fun opt _ => opt;
  load_model := fun net _ => net;
  weighted_f1 := sk_weighted_f1;
  strftime := fun fmt t =>
    if String.eqb fmt "%y%m%d" then "250101" else "01_01_00_" ++ pad 2 (Z.of_nat t);
  elapse := S;
  str_float := str_decimal4
|}.

(** A freshly constructed object on an empty disk. *)
Definition toy_state : State := {|
  self := init "toy" 2;
  training_stats := []; train_loss := []; val_loss := [];
  rng := tt; clock := 0%nat; dirs := ∅; files := ∅; calls := []
|}.

Definition toy_data : list string * list Z := (["negative"; "positive"], [0%Z; 1%Z]).

(** [fit(toy_data, toy_data, batch_size=2, epochs=..., eval_interval=...)]
    ([max_len], [test_size], [seed], [lr], [eps] at their defaults). *)
Definition toy_fit (epochs eval_interval : Z) : M unit :=
  fit toy_data toy_data 2 epochs 512 (1 # 5) 42 (5 # 100000) (1 # 100000000) eval_interval.

(** The toy object once [fit] has stored batch size 2 and created the
    optimizer and the scheduler. *)
Definition toy_ready : State :=
  snd (fit_configure (fst toy_data) 2 2 512 (1 # 5) 42 (5 # 100000) (1 # 100000000) toy_state).

(** Three examples, which batches of two do not divide evenly. *)
Definition toy_texts3 : list string := ["negative"; "positive"; "neutral"].

Definition toy_labels3 : list Z := [0%Z; 1%Z; 0%Z].

(** ** utility/simple_data_loader.py, continued: load_text_label_pairs *)

(** Which answer column a label type selects. *)
Definition selects (label_type answer : string) : Prop :=
  (str_lower label_type = "predicate" /\ answer = "predicate_answer")
  \/ (str_lower label_type = "framenet" /\ answer = "framenet_answer").

(** The white space that [str.strip()] removes, within ASCII: tab to
    carriage return, the four separators 28 to 31, and the space.  White
    space outside ASCII (U+0085, U+00A0, ...) is not removed here: the
    properties that depend on it are stated for text whose ends are
    ASCII. *)
Definition is_space (c : ascii) : bool :=
  let n := nat_of_ascii c in
  ((9 <=? n)%nat && (n <=? 13)%nat) || ((28 <=? n)%nat && (n <=? 32)%nat).

Definition is_ascii (c : ascii) : bool := (nat_of_ascii c <? 128)%nat.

Fixpoint str_lstrip (s : string) : string :=
  match s with
  | EmptyString => EmptyString
  | String c s' => if is_space c then str_lstrip s' else s
  end.

Fixpoint str_rev (s : string) : string :=
  match s with
  | EmptyString => EmptyString
  | String c s' => str_rev s' ++ String c EmptyString
  end.

(** [s.strip()]. *)
Definition str_strip (s : string) : string :=
  str_rev (str_lstrip (str_rev (str_lstrip s))).

(** [s.split(sep)] for a separator of one character: never an empty list. *)
Fixpoint str_split (sep : ascii) (s : string) : list string :=
  match s with
  | EmptyString => [EmptyString]
  | String c s' =>
      if Ascii.eqb c sep then EmptyString :: str_split sep s'
      else match str_split sep s' with
           | field :: fields => String c field :: fields
           | [] => [String c EmptyString]
           end
  end.

(** [sep in s]. *)
Fixpoint str_contains (sep : ascii) (s : string) : bool :=
  match s with
  | EmptyString => false
  | String c s' => Ascii.eqb c sep || str_contains sep s'
  end.

(** What [load_text_label_pairs] can raise: [next(file)] on a file without
    a line, [lst[1]] on a line without comma, or whatever [open] raises. *)
Inductive text_error : Type :=
| StopIteration
| IndexError
| OpenFailed (e : exn).

Section load_text_label_pairs.

(** [open(path, mode='rt', encoding='utf8')] and the iteration over the
    file: its lines, each with its line end. *)
Variable open_lines : string -> outcome (list string).

(** The loop of lines 8-12. *)
Fixpoint text_label_lines (lines : list string) : text_error + list (string * string) :=
  match lines with
  | [] => inr []
  | line :: rest =>
      let lst := str_split "," (str_strip line) in
      match lst with
      | sentence :: label :: _ =>
          match text_label_lines rest with
          | inr result => inr ((sentence, label) :: result)
          | inl e => inl e
          end
      | _ => inl IndexError
      end
  end.

Definition load_text_label_pairs (data_file_path : string)
  : text_error + list (string * string) :=
  match open_lines data_file_path with
  | Raised e => inl (OpenFailed e)
  | Returned [] => inl StopIteration
  | Returned (_ :: lines) => text_label_lines lines
  end.

End load_text_label_pairs.

(** The string is empty or its first character is in ASCII; both ends
    of it are. *)
Definition starts_ascii (s : string) : bool :=
  match s with
  | EmptyString => true
  | String c _ => is_ascii c
  end.

Definition ascii_ends (s : string) : bool := starts_ascii s && starts_ascii (str_rev s).

(** A sentence that does not start with white space, a label that does
    not end with it, the character at that end being in ASCII, neither
    holding a comma; and the line of a data file that holds them. *)
Definition starts_clean (s : string) : bool :=
  match s with
  | EmptyString => true
  | String c _ => negb (is_space c) && is_ascii c
  end.

Definition clean_pair (p : string * string) : bool :=
  starts_clean (fst p) && starts_clean (str_rev (snd p))
  && negb (str_contains "," (fst p)) && negb (str_contains "," (snd p)).

Definition text_label_line (p : string * string) : string :=
  fst p ++ "," ++ snd p ++ String (ascii_of_nat 10) EmptyString.

(** ** berts.py, continued: plot, and notions for further properties *)

Section berts_more.

Context `{B : Backend}.

Local Open Scope py_scope.

(** [plot(self)]: [plot_prcurve] is imported from utility.plot_utils and
    is a parameter here. *)
Definition plot {R : Type} (plot_prcurve : string -> list Z -> list (list Q) -> R) : M R :=
  let* s := get in
  let* labels := getattr true_labels "true_labels" in
  let* scores := getattr predictions "predictions" in
  ret (plot_prcurve (model_name (self s)) labels scores).



(** The path of the prediction table, line 387. *)
Definition prediction_path (model_type today : string) : string :=
  "./prediction/" ++ model_type ++ "_" ++ today ++ ".csv".

(** The scheduler after [n] calls of [step()]. *)
Definition scheduler_steps (n : nat) (sch : Scheduler) : Scheduler :=
  Nat.iter n scheduler_step sch.

End berts_more.

(** A data file of three lines, for concrete runs of
    [load_text_label_pairs]. *)
Definition sample_lines (path : string) : outcome (list string) :=
  if String.eqb path "pairs.csv" then
    Returned ["text,label" ++ String (ascii_of_nat 10) EmptyString;
              text_label_line ("aspirin inhibits cox", "INHIBITS");
              text_label_line ("p53 causes apoptosis", "CAUSES")]
  else Raised (OSError path).

(** A table that has no framenet column, for concrete runs of the
    loaders. *)
Definition predicate_frame : DataFrame := {|
  df_columns := ["text"; "predicate_answer"];
  df_rows := [ ["aspirin inhibits cox"; "INHIBITS"];
               ["p53 causes apoptosis"; "CAUSES"] ]
|}.

Definition predicate_disk (path : string) : outcome DataFrame :=
  if String.eqb path "predicate.csv" then Returned predicate_frame else Raised (OSError path).

(* ================================================================== *)
(** * Part II. Properties *)
(* ================================================================== *)

(** ** The dataset loader *)

Lemma index_of_Some (x : string) (l : list string) (i : nat) :
  index_of x l = Some i -> l !! i = Some x.
Proof.
  revert i. induction l as [|y l IH]; intros i; simpl; [discriminate|].
  destruct (String.eqb x y) eqn:E.
  - intros [= <-]. apply String.eqb_eq in E. now subst.
  - destruct (index_of x l) as [j|]; simpl; [|discriminate].
    intros [= <-]. simpl. now apply IH.
Qed.







Section simple_data_loader_properties.

Variable read_csv : string -> outcome DataFrame.

Lemma text_label_rows_returns (df : DataFrame) (answer : string) (rows : list (list string)) :
  is_Some (index_of "text" (df_columns df)) ->
  is_Some (index_of answer (df_columns df)) ->
  exists r, text_label_rows df answer rows = Returned r.
Proof.
  intros [j Hj] [k Hk]. induction rows as [|row rows [r IH]]; simpl; [eauto|].
  unfold row_getitem. rewrite Hj, Hk. simpl. rewrite IH. simpl. eauto.
Qed.


(** C10.  A [label_type] whose lower-case form is [predicate] or
    [framenet] is treated by both loaders as that lower-case value, and
    both return when the file is read and holds the three columns. *)
Theorem label_type_case_insensitive (path label_type : string) :
  str_lower label_type = "predicate" \/ str_lower label_type = "framenet" ->
  load_bert_data read_csv path label_type
    = load_bert_data read_csv path (str_lower label_type)
  /\ load_csv_dataset read_csv path label_type
    = load_csv_dataset read_csv path (str_lower label_type)
  /\ (forall df,
        read_csv path = Returned df ->
        is_Some (index_of "text" (df_columns df)) ->
        is_Some (index_of "predicate_answer" (df_columns df)) ->
        is_Some (index_of "framenet_answer" (df_columns df)) ->
        (exists r, load_bert_data read_csv path label_type = Returned r)
        /\ (exists r, load_csv_dataset read_csv path label_type = Returned r)).
Proof.
  intros H. unfold load_bert_data, load_csv_dataset.
  split; [|split].
  - destruct H as [H|H]; rewrite H; reflexivity.
  - destruct H as [H|H]; rewrite H; reflexivity.
  - intros df Hdf Ht Hp Hf. rewrite Hdf. simpl.
    pose proof (text_label_rows_returns df "predicate_answer" (df_rows df) Ht Hp) as Rp.
    pose proof (text_label_rows_returns df "framenet_answer" (df_rows df) Ht Hf) as Rf.
    destruct Ht as [jt Ht], Hp as [jp Hp], Hf as [jf Hf].
    unfold df_getattr. rewrite Ht, Hp, Hf. simpl.
    destruct H as [H|H]; rewrite H; simpl; eauto.
Qed.

End simple_data_loader_properties.



Lemma label_type_case_insensitive_witness :
  load_bert_data sample_disk "train.csv" "PREDICATE"
    = load_bert_data sample_disk "train.csv" "predicate"
  /\ load_csv_dataset sample_disk "train.csv" "FrameNet"
    = load_csv_dataset sample_disk "train.csv" "framenet".
Proof.
  split.
  - apply (label_type_case_insensitive sample_disk "train.csv" "PREDICATE"). left. reflexivity.
  - apply (label_type_case_insensitive sample_disk "train.csv" "FrameNet"). right. reflexivity.
Defined.

(** ** Numbers and arrays *)

Lemma py_gt_spec (a b : Q) : py_gt a b = true <-> (b < a)%Q.
Proof.
  unfold py_gt. rewrite Qgt_alt. destruct (a ?= b)%Q; split; congruence.
Qed.

Lemma py_gt_false (a b : Q) : py_gt a b = false <-> (a <= b)%Q.
Proof.
  unfold py_gt. rewrite Qle_alt. destruct (a ?= b)%Q; split; congruence.
Qed.

Lemma Qsum_app (l1 l2 : list Q) : (Qsum (l1 ++ l2) == Qsum l1 + Qsum l2)%Q.
Proof.
  induction l1 as [|x l1 IH]; simpl.
  - now rewrite Qplus_0_l.
  - rewrite IH. apply Qplus_assoc.
Qed.

Lemma len_nonempty {A : Type} (l : list A) : l <> [] -> (len l =? 0)%Z = false.
Proof. destruct l; [congruence|]. intros _. reflexivity. Qed.

Lemma py_range_succ (lo : Z) (n : nat) :
  py_range lo (lo + Z.of_nat (S n)) = lo :: py_range (lo + 1) (lo + 1 + Z.of_nat n).
Proof.
  unfold py_range.
  replace (lo + Z.of_nat (S n) - lo)%Z with (Z.of_nat (S n)) by lia.
  replace (lo + 1 + Z.of_nat n - (lo + 1))%Z with (Z.of_nat n) by lia.
  rewrite !Nat2Z.id. simpl. f_equal; [f_equal; lia|].
  rewrite <- seq_shift, map_map. apply map_ext. intros i. lia.
Qed.

Lemma py_range_empty (lo hi : Z) : (hi <= lo)%Z -> py_range lo hi = [].
Proof.
  intros H. unfold py_range. replace (Z.to_nat (hi - lo)) with 0%nat by lia. reflexivity.
Qed.

Lemma elem_of_py_range (lo hi i : Z) : i ∈ py_range lo hi <-> (lo <= i < hi)%Z.
Proof.
  unfold py_range. rewrite list_elem_of_fmap. split.
  - intros (n & -> & Hn). apply list_elem_of_In, in_seq in Hn. lia.
  - intros H. exists (Z.to_nat (i - lo)). split; [lia|].
    apply list_elem_of_In, in_seq. lia.
Qed.

(** [argmax_from] returns the first index at which the maximum of the
    row and the running maximum is reached. *)
Lemma argmax_from_spec (row : list Q) (best : Q) (ibest i : Z) :
  (0 <= ibest < i)%Z ->
  let k := argmax_from best ibest i row in
  (k = ibest /\ Forall (fun w => (w <= best)%Q) row)
  \/ (exists v, (i <= k)%Z /\ row !! Z.to_nat (k - i) = Some v /\ (best < v)%Q /\
        forall j w, row !! j = Some w ->
          (w <= v)%Q /\ ((j < Z.to_nat (k - i))%nat -> (w < v)%Q)).
Proof.
  revert best ibest i. induction row as [|x row IH]; intros best ibest i Hi; simpl.
  - left. split; [reflexivity|constructor].
  - destruct (py_gt x best) eqn:E.
    + apply py_gt_spec in E. right.
      destruct (IH x i (i + 1)%Z ltac:(lia)) as [[Hk Hall]|(v & Hk & Hv & Hlt & Hmax)].
      * exists x. rewrite Hk. replace (Z.to_nat (i - i)) with 0%nat by lia.
        split; [lia|]. split; [reflexivity|]. split; [exact E|].
        intros [|j] w Hw; simpl in Hw.
        -- injection Hw as <-. split; [apply Qle_refl|lia].
        -- split; [|lia]. rewrite Forall_lookup in Hall. eauto.
      * exists v.
        replace (Z.to_nat (argmax_from x i (i + 1) row - i))
          with (S (Z.to_nat (argmax_from x i (i + 1) row - (i + 1)))) by lia.
        split; [lia|]. split; [exact Hv|]. split; [eapply Qlt_trans; eauto|].
        intros [|j] w Hw; simpl in Hw.
        -- injection Hw as <-. split; [now apply Qlt_le_weak|auto].
        -- destruct (Hmax j w Hw) as [H1 H2]. split; [exact H1|]. intros Hj. apply H2. lia.
    + apply py_gt_false in E.
      destruct (IH best ibest (i + 1)%Z ltac:(lia)) as [[Hk Hall]|(v & Hk & Hv & Hlt & Hmax)].
      * left. split; [exact Hk|]. constructor; assumption.
      * right. exists v.
        replace (Z.to_nat (argmax_from best ibest (i + 1) row - i))
          with (S (Z.to_nat (argmax_from best ibest (i + 1) row - (i + 1)))) by lia.
        split; [lia|]. split; [exact Hv|]. split; [exact Hlt|].
        intros [|j] w Hw; simpl in Hw.
        -- injection Hw as <-. split; [|intros _].
           ++ apply Qlt_le_weak. eapply Qle_lt_trans; eauto.
           ++ eapply Qle_lt_trans; eauto.
        -- destruct (Hmax j w Hw) as [H1 H2]. split; [exact H1|]. intros Hj. apply H2. lia.
Qed.

Lemma np_argmax_spec (row : list Q) :
  row <> [] -> exists k, np_argmax row = Returned k /\ first_argmax row k.
Proof.
  destruct row as [|x row]; [congruence|]. intros _. simpl.
  eexists. split; [reflexivity|].
  destruct (argmax_from_spec row x 0 1 ltac:(lia)) as [[Hk Hall]|(v & Hk & Hv & Hlt & Hmax)].
  - exists x. rewrite Hk. split; [lia|]. split; [reflexivity|].
    intros [|j] w Hw; simpl in Hw.
    + injection Hw as <-. split; [apply Qle_refl|lia].
    + split; [|simpl; lia]. rewrite Forall_lookup in Hall. eauto.
  - exists v.
    replace (Z.to_nat (argmax_from x 0 1 row)) with (S (Z.to_nat (argmax_from x 0 1 row - 1))) by lia.
    split; [lia|]. split; [exact Hv|].
    intros [|j] w Hw; simpl in Hw.
    + injection Hw as <-. split; [now apply Qlt_le_weak|auto].
    + destruct (Hmax j w Hw) as [H1 H2]. split; [exact H1|]. intros Hj. apply H2. lia.
Qed.

Lemma np_argmax_axis1_spec (a : list (list Q)) :
  Forall (fun row => row <> []) a ->
  exists p, np_argmax_axis1 a = Returned p /\ length p = length a /\
    forall i row k, a !! i = Some row -> p !! i = Some k -> first_argmax row k.
Proof.
  induction 1 as [|row a Hrow _ (p & Hp & Hlen & Hall)]; simpl.
  - exists []. split; [reflexivity|]. split; [reflexivity|]. intros i row k H. discriminate H.
  - destruct (np_argmax_spec row Hrow) as (k & Hk & Harg).
    rewrite Hk. simpl. rewrite Hp. simpl. exists (k :: p).
    split; [reflexivity|]. split; [simpl; now rewrite Hlen|].
    intros [|i] row' k' H1 H2; simpl in H1, H2.
    + injection H1 as <-. injection H2 as <-. exact Harg.
    + eauto.
Qed.

(** ** The engine *)

Section engine_properties.

Context `{B : Backend}.

Local Open Scope py_scope.

Lemma same_but_learner_refl (s : State) : same_but_learner s s.
Proof. repeat split. Qed.

Lemma same_but_learner_trans (s1 s2 s3 : State) :
  same_but_learner s1 s2 -> same_but_learner s2 s3 -> same_but_learner s1 s3.
Proof.
  unfold same_but_learner, same_config, same_results, same_disk, same_lists.
  intros H1 H2. repeat split; intuition congruence.
Qed.

(** *** Training *)

(** One batch of training: the loss is added to the running total and
    the learner moves one step. *)
Lemma train_batch_run (total : Q) (b : Batch Tensor) (s : State) (opt : Optim) (sch : Scheduler) :
  optimizer (self s) = Some opt ->
  scheduler (self s) = Some sch ->
  exists s',
    train_batch total b s
      = (Returned (total + model_loss true (model (self s))
                             (b_input_ids b) (b_input_mask b) (b_labels b))%Q, s')
    /\ model (self s') = fst (optimizer_step (model (self s)) opt b)
    /\ optimizer (self s')
         = Some (set_lr (snd (optimizer_step (model (self s)) opt b)) (scheduler_step sch))
    /\ scheduler (self s') = Some (scheduler_step sch)
    /\ same_but_learner s s'.
Proof.
  intros Hopt Hsch. unfold train_batch, getattr, bind, get.
  rewrite Hopt. unfold ret at 1.
  destruct (optimizer_step (model (self s)) opt b) as [net' opt'] eqn:E.
  cbn. rewrite Hsch. cbn.
  eexists. split; [reflexivity|]. cbn. repeat split.
Qed.

Lemma length_train_batch_losses (py_inputs : list (Batch Tensor)) (net : Net) (opt : Optim)
    (sch : Scheduler) :
  length (train_batch_losses net opt sch py_inputs) = length py_inputs.
Proof.
  revert net opt sch. induction py_inputs as [|b rest IH]; intros net opt sch; simpl.
  - reflexivity.
  - destruct (optimizer_step net opt b). simpl. now rewrite IH.
Qed.

Lemma train_loop_run (py_inputs : list (Batch Tensor)) (total : Q) (s : State)
    (opt : Optim) (sch : Scheduler) :
  optimizer (self s) = Some opt ->
  scheduler (self s) = Some sch ->
  exists total' s',
    for_fold py_inputs total train_batch s = (Returned total', s')
    /\ (total' == total + Qsum (train_batch_losses (model (self s)) opt sch py_inputs))%Q
    /\ ready s' /\ same_but_learner s s'.
Proof.
  revert total s opt sch.
  induction py_inputs as [|b rest IH]; intros total s opt sch Hopt Hsch.
  - exists total, s. simpl. split; [reflexivity|]. split; [now rewrite Qplus_0_r|].
    split; [split; eauto|apply same_but_learner_refl].
  - destruct (train_batch_run total b s opt sch Hopt Hsch)
      as (s1 & Hrun & Hnet & Hopt1 & Hsch1 & Hframe).
    destruct (IH (total + model_loss true (model (self s))
                            (b_input_ids b) (b_input_mask b) (b_labels b))%Q
                 s1 _ _ Hopt1 Hsch1) as (total' & s' & Hloop & Htot & Hready & Hframe').
    exists total', s'. simpl. unfold bind at 1. rewrite Hrun, Hloop.
    split; [reflexivity|]. split.
    + rewrite Htot, Hnet.
      destruct (optimizer_step (model (self s)) opt b) as [net' opt']. simpl.
      now rewrite Qplus_assoc.
    + split; [exact Hready|]. eapply same_but_learner_trans; eauto.
Qed.

(** A training pass over a non-empty batch sequence returns; the mean
    of the batch losses is appended to [train_loss]. *)
Lemma train_run (X : list string) (y : list Z) (epoch_i : Z) (s : State)
    (opt : Optim) (sch : Scheduler) :
  optimizer (self s) = Some opt ->
  scheduler (self s) = Some sch ->
  let py_inputs :=
    fst (make_smart_batches (rng s) (max_len (self s)) X (Some y) (batch_size (self s))) in
  py_inputs <> [] ->
  exists avg s',
    train X y epoch_i s = (Returned tt, s')
    /\ (avg == mean (train_batch_losses (model (self s)) opt sch py_inputs))%Q
    /\ train_loss s' = (train_loss s ++ [avg])%list
    /\ val_loss s' = val_loss s
    /\ calls s' = (calls s ++ [CallTrain epoch_i])%list
    /\ ready s' /\ same_config s s' /\ same_results s s' /\ same_disk s s'.
Proof.
  intros Hopt Hsch py_inputs Hne. subst py_inputs.
  unfold train, smart_batches, bind, modify, get. cbn.
  destruct (make_smart_batches (rng s) (max_len (self s)) X (Some y) (batch_size (self s)))
    as [py_inputs r] eqn:E.
  cbn in Hne. cbn.
  set (s1 := with_rng r (with_calls (calls s ++ [CallTrain epoch_i]) s)).
  destruct (train_loop_run py_inputs 0%Q s1 opt sch Hopt Hsch)
    as (total' & s2 & Hloop & Htot & Hready & Hframe).
  rewrite Hloop. unfold lift, py_truediv. rewrite (len_nonempty _ Hne). cbn.
  exists (total' / inject_Z (len py_inputs))%Q. eexists. split; [reflexivity|]. cbn.
  destruct Hframe as ((C1 & C2 & C3 & C4) & (R1 & R2 & R3) & (D1 & D2) & (L1 & L2 & L3) & Hc & Hr).
  split.
  { unfold mean, len. rewrite length_train_batch_losses. rewrite Htot, Qplus_0_l.
    reflexivity. }
  split; [now rewrite L2|]. split; [now rewrite L3|]. split; [now rewrite Hc|].
  split; [exact Hready|].
  repeat split; cbn; assumption.
Qed.

(** *** Evaluation *)

Lemma eval_loop_run (py_inputs : list (Batch Tensor)) (total : Q)
    (P : list (list (list Q))) (T : list (list Z)) (s : State) :
  exists total' t,
    for_fold py_inputs (total, P, T) eval_batch s
      = (Returned (total',
                   (P ++ eval_batch_logits (model (self s)) py_inputs)%list,
                   (T ++ eval_batch_labels py_inputs)%list),
         with_clock t s)
    /\ (total' == total + Qsum (eval_batch_losses (model (self s)) py_inputs))%Q.
Proof.
  revert total P T s. induction py_inputs as [|b rest IH]; intros total P T s.
  - exists total, (clock s). simpl. rewrite !app_nil_r. unfold ret.
    split; [destruct s; reflexivity|now rewrite Qplus_0_r].
  - simpl. unfold bind at 1. cbn.
    edestruct IH as (total' & t & Hloop & Htot). rewrite Hloop. cbn.
    exists total', t. rewrite <- !app_assoc. split; [reflexivity|].
    rewrite Htot. cbn. now rewrite Qplus_assoc.
Qed.

Lemma length_concat_aligned {A C D : Type} (f : A -> list C) (g : A -> list D) (l : list A) :
  Forall (fun a => length (f a) = length (g a)) l ->
  length (concat (map f l)) = length (concat (map g l)).
Proof.
  induction 1 as [|a l Ha _ IH]; simpl; [reflexivity|].
  rewrite !length_app. congruence.
Qed.

Lemma np_concatenate_map {A C : Type} (f : A -> list C) (l : list A) :
  l <> [] -> np_concatenate (map f l) = Returned (concat (map f l)).
Proof. destruct l; [congruence|reflexivity]. Qed.

(** An evaluation over a non-empty batch sequence whose score rows are
    not empty returns; it stores the concatenated logits and labels and
    the argmax of every row, appends the mean batch loss to [val_loss],
    and writes a checkpoint exactly when the F1 is greater than the
    [best_score] it was called with. *)
Lemma eval_run (X : list string) (y : list Z) (epoch_i : Z) (best_score : Q) (s : State)
    (opt : Optim) (sch : Scheduler) :
  optimizer (self s) = Some opt ->
  scheduler (self s) = Some sch ->
  let py_inputs :=
    fst (make_smart_batches (rng s) (max_len (self s)) X (Some y) (batch_size (self s))) in
  let net := model (self s) in
  py_inputs <> [] ->
  Forall (fun b => length (model_logits false net (b_input_ids b) (b_input_mask b))
                   = length (b_labels b)) py_inputs ->
  Forall (fun row => row <> []) (concat (eval_batch_logits net py_inputs)) ->
  exists avg D s',
    eval X y epoch_i best_score s = (Returned tt, s')
    /\ (avg == mean (eval_batch_losses net py_inputs))%Q
    /\ val_loss s' = (val_loss s ++ [avg])%list
    /\ train_loss s' = train_loss s
    /\ calls s' = (calls s ++ [CallEval epoch_i])%list
    /\ predictions (self s') = Some (concat (eval_batch_logits net py_inputs))
    /\ true_labels (self s') = Some (concat (eval_batch_labels py_inputs))
    /\ np_argmax_axis1 (concat (eval_batch_logits net py_inputs)) = Returned D
    /\ preds (self s') = Some D
    /\ model (self s') = net
    /\ optimizer (self s') = Some opt
    /\ scheduler (self s') = Some sch
    /\ same_config s s'
    /\ (let f1 := weighted_f1 (concat (eval_batch_labels py_inputs)) D in
        if py_gt f1 best_score then
          exists now,
            files s' = <[ checkpoint_path "./models_BERT" (model_name (self s)) now epoch_i f1
                          := Checkpoint net opt sch ]> (files s)
        else files s' = files s).
Proof.
  intros Hopt Hsch py_inputs net Hne Haligned Hrows. subst py_inputs net.
  unfold eval, smart_batches, bind, modify, get. cbn.
  destruct (make_smart_batches (rng s) (max_len (self s)) X (Some y) (batch_size (self s)))
    as [py_inputs r] eqn:E.
  cbn in Hne, Haligned, Hrows. cbn.
  set (s1 := with_rng r (with_calls (calls s ++ [CallEval epoch_i]) s)).
  destruct (eval_loop_run py_inputs 0%Q [] [] s1) as (total' & t & Hloop & Htot).
  rewrite Hloop. cbn.
  unfold lift, py_truediv. rewrite (len_nonempty _ Hne). cbn.
  unfold eval_batch_logits, eval_batch_labels.
  rewrite !np_concatenate_map by exact Hne. cbn.
  destruct (np_argmax_axis1_spec _ Hrows) as (D & HD & HlenD & _).
  unfold eval_batch_logits in HD, HlenD. rewrite HD. cbn.
  assert (Hlen : (length (concat (map b_labels py_inputs)) =? length D)%nat = true).
  { apply Nat.eqb_eq. rewrite HlenD. symmetry.
    apply length_concat_aligned. exact Haligned. }
  unfold check_consistent_length. rewrite Hlen. cbn.
  exists (total' / inject_Z (len py_inputs))%Q, D.
  assert (Hmean : (total' / inject_Z (len py_inputs)
                   == mean (eval_batch_losses (model (self s)) py_inputs))%Q).
  { unfold mean, len, eval_batch_losses. rewrite length_map.
    rewrite Htot, Qplus_0_l. reflexivity. }
  unfold mkdir_if_missing, bind, get, ret, modify. cbn.
  destruct (os_path_exists _ _); cbn;
    destruct (py_gt _ best_score) eqn:Egt; cbn;
    rewrite ?Hopt; cbn; rewrite ?Hsch; cbn;
    (eexists; split; [reflexivity|]); cbn;
    (split; [exact Hmean|]);
    do 10 (split; [first [reflexivity | exact Hopt | exact Hsch]|]);
    (split; [repeat split|]);
    first [reflexivity | eexists; reflexivity].
Qed.

(** *** The epoch loop *)

Lemma fit_epoch_run (X_train : list string) (y_train : list Z)
    (X_test : list string) (y_test : list Z) (bs ml eval_interval : Z)
    (best_score : Q) (epoch_i : Z) (s : State) :
  eval_interval <> 0%Z ->
  ready s -> batch_size (self s) = Some bs -> max_len (self s) = Some ml ->
  trainable ml bs X_train y_train ->
  ((epoch_i mod eval_interval)%Z = 0%Z -> evaluable ml bs X_test y_test) ->
  exists s',
    fit_epoch X_train y_train X_test y_test eval_interval best_score epoch_i s
      = (Returned best_score, s')
    /\ ready s' /\ same_config s s'
    /\ calls s' = (calls s ++ epoch_calls eval_interval epoch_i)%list
    /\ ((epoch_i mod eval_interval)%Z <> 0%Z -> same_results s s' /\ same_disk s s').
Proof.
  intros Hk [[opt Hopt] [sch Hsch]] Hbs Hml Htrain Heval.
  destruct (train_run X_train y_train epoch_i s opt sch Hopt Hsch)
    as (avg & s1 & Hrun & _ & _ & _ & Hcalls & Hready & Hcfg & Hres & Hdisk).
  { rewrite Hbs, Hml. apply Htrain. }
  unfold fit_epoch, bind at 1. rewrite Hrun.
  unfold bind at 1, lift, py_mod. apply Z.eqb_neq in Hk. rewrite Hk.
  unfold epoch_calls.
  destruct (epoch_i mod eval_interval =? 0)%Z eqn:Emod.
  - apply Z.eqb_eq in Emod. destruct (Heval Emod) as (Htest & Haligned & Hrows).
    destruct Hready as [[opt1 Hopt1] [sch1 Hsch1]].
    destruct Hcfg as (C1 & C2 & C3 & C4).
    destruct (eval_run X_test y_test epoch_i best_score s1 opt1 sch1 Hopt1 Hsch1)
      as (avg' & D & s2 & Hrun2 & _ & _ & _ & Hcalls2 & _ & _ & _ & _ & _ & Hopt2 & Hsch2
          & (E1 & E2 & E3 & E4) & _).
    { rewrite C2, C4, Hbs, Hml. apply Htest. }
    { rewrite C2, C4, Hbs, Hml. apply Haligned. }
    { apply Forall_concat, Forall_fmap, Forall_forall. intros b _. apply Hrows. }
    unfold bind. rewrite Hrun2. unfold ret.
    exists s2. split; [reflexivity|]. split; [split; eauto|].
    split; [repeat split; congruence|].
    split; [rewrite Hcalls2, Hcalls, <- app_assoc; reflexivity|].
    intros Hne. contradiction.
  - unfold ret. exists s1. split; [reflexivity|]. split; [exact Hready|].
    split; [exact Hcfg|]. split; [exact Hcalls|]. intros _. split; assumption.
Qed.

Lemma fit_loop_run (X_train : list string) (y_train : list Z)
    (X_test : list string) (y_test : list Z) (bs ml eval_interval : Z)
    (best_score : Q) (l : list Z) (s : State) :
  eval_interval <> 0%Z ->
  ready s -> batch_size (self s) = Some bs -> max_len (self s) = Some ml ->
  trainable ml bs X_train y_train ->
  (forall i, i ∈ l -> (i mod eval_interval)%Z = 0%Z -> evaluable ml bs X_test y_test) ->
  exists s',
    for_fold l best_score (fit_epoch X_train y_train X_test y_test eval_interval) s
      = (Returned best_score, s')
    /\ ready s' /\ same_config s s'
    /\ calls s' = (calls s ++ flat_map (epoch_calls eval_interval) l)%list
    /\ ((forall i, i ∈ l -> (i mod eval_interval)%Z <> 0%Z) ->
          same_results s s' /\ same_disk s s').
Proof.
  intros Hk. revert s. induction l as [|i l IH]; intros s Hready Hbs Hml Htrain Heval.
  - exists s. simpl. rewrite app_nil_r. repeat split; apply Hready.
  - destruct (fit_epoch_run X_train y_train X_test y_test bs ml eval_interval
                best_score i s Hk Hready Hbs Hml Htrain)
      as (s1 & Hrun & Hready1 & Hcfg1 & Hcalls1 & Hsame1).
    { apply Heval. left. }
    destruct Hcfg1 as (C1 & C2 & C3 & C4).
    destruct (IH s1 Hready1) as (s2 & Hloop & Hready2 & (E1 & E2 & E3 & E4) & Hcalls2 & Hsame2);
      [congruence|congruence|exact Htrain|intros j Hj; apply Heval; now right|].
    exists s2. simpl. unfold bind at 1. rewrite Hrun, Hloop.
    split; [reflexivity|]. split; [exact Hready2|].
    split; [repeat split; congruence|].
    split; [rewrite Hcalls2, Hcalls1, <- app_assoc; reflexivity|].
    intros Hno.
    destruct Hsame1 as [(R1 & R2 & R3) (D1 & D2)]; [apply Hno; left|].
    destruct Hsame2 as [(R1' & R2' & R3') (D1' & D2')]; [intros j Hj; apply Hno; now right|].
    repeat split; congruence.
Qed.

Lemma fit_configure_run (X_train : list string) (bs ep ml : Z) (ts : Q) (sd : Z) (lr eps : Q)
    (s : State) :
  bs <> 0%Z ->
  exists s',
    fit_configure X_train bs ep ml ts sd lr eps s = (Returned tt, s')
    /\ scheduler (self s')
         = Some (get_linear_schedule_with_warmup 0 ((len X_train / bs + 1) * ep))
    /\ is_Some (optimizer (self s'))
    /\ batch_size (self s') = Some bs /\ max_len (self s') = Some ml
    /\ epochs (self s') = Some ep /\ model_name (self s') = model_name (self s)
    /\ same_results s s' /\ same_disk s s' /\ calls s' = calls s.
Proof.
  intros Hbs. unfold fit_configure, bind, get, modify, lift, py_floordiv.
  apply Z.eqb_neq in Hbs. rewrite Hbs. cbn.
  eexists. split; [reflexivity|]. cbn. repeat split. eauto.
Qed.


Lemma fit_report_missing (s : State) :
  true_labels (self s) = None \/ preds (self s) = None ->
  exists attr, fit_report s = (Raised (AttributeError attr), s).
Proof.
  unfold fit_report, getattr, bind, get, raise, ret.
  destruct (true_labels (self s)); cbn.
  - intros [H|H]; [discriminate|]. rewrite H. eauto.
  - eauto.
Qed.



(** Whatever happens after line 263, the mean batch loss stays at the
    end of [val_loss]. *)
Lemma eval_val_loss (X : list string) (y : list Z) (epoch_i : Z) (best_score : Q) (s : State) :
  let py_inputs :=
    fst (make_smart_batches (rng s) (max_len (self s)) X (Some y) (batch_size (self s))) in
  py_inputs <> [] ->
  exists avg,
    val_loss (snd (eval X y epoch_i best_score s)) = (val_loss s ++ [avg])%list
    /\ (avg == mean (eval_batch_losses (model (self s)) py_inputs))%Q.
Proof.
  intros py_inputs Hne. subst py_inputs.
  unfold eval, smart_batches, bind, modify, get. cbn.
  destruct (make_smart_batches (rng s) (max_len (self s)) X (Some y) (batch_size (self s)))
    as [py_inputs r] eqn:E.
  cbn in Hne. cbn.
  set (s1 := with_rng r (with_calls (calls s ++ [CallEval epoch_i]) s)).
  destruct (eval_loop_run py_inputs 0%Q [] [] s1) as (total' & t & Hloop & Htot).
  rewrite Hloop. cbn.
  unfold lift, py_truediv. rewrite (len_nonempty _ Hne). cbn.
  unfold eval_batch_logits, eval_batch_labels.
  rewrite !np_concatenate_map by exact Hne. cbn.
  exists (total' / inject_Z (len py_inputs))%Q. split.
  - destruct (np_argmax_axis1 _); cbn; [|reflexivity].
    destruct (check_consistent_length _ _) as [[]|e]; cbn; [|reflexivity].
    unfold mkdir_if_missing, getattr, write_file, bind, get, ret, raise, modify. cbn.
    destruct (os_path_exists _ _); cbn;
      (destruct (py_gt _ best_score); cbn; [|reflexivity]);
      (destruct (optimizer (self s)); cbn; [|reflexivity]);
      (destruct (scheduler (self s)); cbn; reflexivity).
  - unfold mean, len, eval_batch_losses. rewrite length_map.
    rewrite Htot, Qplus_0_l. reflexivity.
Qed.

(** *** The claims on the engine *)

(** C2.  The best score that [fit] holds is the same after an iteration
    of the epoch loop as before it, whatever the F1 of the evaluation:
    it never decreases, and it changes only when (in fact, not even
    when) the new F1 is greater.  The same holds over the whole loop. *)
Theorem best_score_non_decreasing (X_train : list string) (y_train : list Z)
    (X_test : list string) (y_test : list Z) (eval_interval : Z) (best_score : Q) :
  (forall epoch_i s best_score' s',
      fit_epoch X_train y_train X_test y_test eval_interval best_score epoch_i s
        = (Returned best_score', s') ->
      (best_score <= best_score')%Q
      /\ (best_score' <> best_score ->
          exists labels predicted,
            true_labels (self s') = Some labels /\ preds (self s') = Some predicted
            /\ (best_score < weighted_f1 labels predicted)%Q))
  /\ (forall l s best_score' s',
        for_fold l best_score (fit_epoch X_train y_train X_test y_test eval_interval) s
          = (Returned best_score', s') ->
        (best_score <= best_score')%Q /\ best_score' = best_score).
Proof.
  assert (Hstep : forall epoch_i s b' s',
             fit_epoch X_train y_train X_test y_test eval_interval best_score epoch_i s
               = (Returned b', s') -> b' = best_score).
  { intros epoch_i s b' s'. unfold fit_epoch, bind, lift, ret.
    destruct (train X_train y_train epoch_i s) as [[[]|e] s1]; [|discriminate].
    destruct (py_mod epoch_i eval_interval) as [r|e]; [|discriminate].
    destruct (r =? 0)%Z; [|congruence].
    destruct (eval X_test y_test epoch_i best_score s1) as [[[]|e] s2]; congruence. }
  split.
  - intros epoch_i s b' s' Hrun. rewrite (Hstep _ _ _ _ Hrun).
    split; [apply Qle_refl|]. intros Hne. contradiction.
  - intros l. induction l as [|i l IH]; intros s b' s' Hrun; simpl in Hrun.
    + unfold ret in Hrun. injection Hrun as <- _. split; [apply Qle_refl|reflexivity].
    + unfold bind in Hrun.
      destruct (fit_epoch X_train y_train X_test y_test eval_interval best_score i s)
        as [[b1|e] s1] eqn:E1; [|discriminate].
      rewrite (Hstep _ _ _ _ E1) in Hrun. eauto.
Qed.

(** C3.  The scheduler that [fit] creates is given
    [(len(X_train) // batch_size + 1) * epochs] training steps and no
    warm-up step: one batch per epoch more than the data holds when the
    batch size divides the number of examples, and 21 steps for 100
    examples in batches of 16 over 3 epochs. *)
Theorem fit_total_steps (X_train : list string) (batch_size epochs max_len : Z)
    (test_size : Q) (seed : Z) (lr eps : Q) (s : State) :
  batch_size <> 0%Z ->
  exists sch,
    scheduler (self (snd (fit_configure X_train batch_size epochs max_len
                            test_size seed lr eps s))) = Some sch
    /\ num_warmup_steps sch = 0%Z
    /\ num_training_steps sch = ((len X_train / batch_size + 1) * epochs)%Z
    /\ (forall m, (0 < batch_size)%Z -> len X_train = (m * batch_size)%Z ->
          num_training_steps sch = ((m + 1) * epochs)%Z)
    /\ (len X_train = 100%Z -> batch_size = 16%Z -> epochs = 3%Z ->
          num_training_steps sch = 21%Z).
Proof.
  intros Hbs.
  destruct (fit_configure_run X_train batch_size epochs max_len test_size seed lr eps s Hbs)
    as (s' & Hrun & Hsch & _).
  rewrite Hrun. cbn [snd]. eexists. split; [exact Hsch|]. cbn.
  split; [reflexivity|]. split; [reflexivity|]. split.
  - intros m Hpos ->. rewrite Z.div_mul by lia. reflexivity.
  - intros -> -> ->. reflexivity.
Qed.



(** C6.  Over a non-empty batch sequence, the value that [train]
    appends to [train_loss] and the value that [eval] appends to
    [val_loss] are the sum of the batch losses divided by the number of
    batches. *)
Theorem average_loss_is_mean_of_batch_losses (X : list string) (y : list Z) (epoch_i : Z)
    (best_score : Q) (s : State) (opt : Optim) (sch : Scheduler) :
  optimizer (self s) = Some opt ->
  scheduler (self s) = Some sch ->
  let py_inputs :=
    fst (make_smart_batches (rng s) (max_len (self s)) X (Some y) (batch_size (self s))) in
  py_inputs <> [] ->
  (exists avg s',
      train X y epoch_i s = (Returned tt, s')
      /\ train_loss s' = (train_loss s ++ [avg])%list
      /\ (avg == Qsum (train_batch_losses (model (self s)) opt sch py_inputs)
                  / inject_Z (len py_inputs))%Q)
  /\ (exists avg,
        val_loss (snd (eval X y epoch_i best_score s)) = (val_loss s ++ [avg])%list
        /\ (avg == Qsum (eval_batch_losses (model (self s)) py_inputs)
                    / inject_Z (len py_inputs))%Q).
Proof.
  intros Hopt Hsch py_inputs Hne. split.
  - destruct (train_run X y epoch_i s opt sch Hopt Hsch Hne)
      as (avg & s' & Hrun & Havg & Hloss & _).
    exists avg, s'. split; [exact Hrun|]. split; [exact Hloss|].
    rewrite Havg. unfold mean, len. now rewrite length_train_batch_losses.
  - destruct (eval_val_loss X y epoch_i best_score s Hne) as (avg & Hloss & Havg).
    exists avg. split; [exact Hloss|].
    rewrite Havg. unfold mean, len, eval_batch_losses. now rewrite length_map.
Qed.

(** C7 (amended).  When the batch source yields no batch for an empty
    text sequence, [pred] on it raises the [ValueError] of
    [np.concatenate]; no directory and no file is created. *)
Theorem pred_empty_raises (model_file_name model_type : string) (batch_size max_len : Z)
    (s : State) :
  fst (make_smart_batches (rng s) (Some max_len) [] None (Some batch_size)) = [] ->
  fst (pred [] model_file_name model_type batch_size max_len s)
    = Raised (ValueError "need at least one array to concatenate")
  /\ files (snd (pred [] model_file_name model_type batch_size max_len s)) = files s
  /\ dirs (snd (pred [] model_file_name model_type batch_size max_len s)) = dirs s.
Proof.
  intros Hnone. unfold pred, smart_batches, bind, get, modify. cbn.
  destruct (make_smart_batches (rng s) (Some max_len) [] None (Some batch_size))
    as [py_inputs r].
  cbn in Hnone. subst py_inputs. cbn. repeat split.
Qed.

(** C9 (amended).  On an object whose [true_labels] or [preds] has never
    been assigned, a [fit] whose training passes succeed and in which no
    epoch index from 1 to [epochs] is a multiple of the (non-zero)
    [eval_interval] raises [AttributeError] when it builds the report;
    it creates no directory and writes no file. *)
Theorem fit_without_eval_raises (train_data test_data : list string * list Z)
    (batch_size epochs max_len : Z) (test_size : Q) (seed : Z) (lr eps : Q)
    (eval_interval : Z) (s : State) :
  true_labels (self s) = None \/ preds (self s) = None ->
  batch_size <> 0%Z ->
  eval_interval <> 0%Z ->
  (forall i, (1 <= i <= epochs)%Z -> (i mod eval_interval)%Z <> 0%Z) ->
  trainable max_len batch_size (fst train_data) (snd train_data) ->
  exists attr,
    fst (fit train_data test_data batch_size epochs max_len test_size seed lr eps
           eval_interval s) = Raised (AttributeError attr)
    /\ files (snd (fit train_data test_data batch_size epochs max_len test_size seed lr eps
                     eval_interval s)) = files s
    /\ dirs (snd (fit train_data test_data batch_size epochs max_len test_size seed lr eps
                    eval_interval s)) = dirs s.
Proof.
  intros Hmissing Hbs Hk Hno Htrain.
  destruct train_data as [X_train y_train], test_data as [X_test y_test].
  cbn [fst snd] in Htrain.
  assert (Hno' : forall i, i ∈ py_range 1 (epochs + 1) -> (i mod eval_interval)%Z <> 0%Z).
  { intros i Hi. apply elem_of_py_range in Hi. apply Hno. lia. }
  destruct (fit_configure_run X_train batch_size epochs max_len test_size seed lr eps s Hbs)
    as (s0 & Hrun0 & Hsch & Hopt & Hb & Hm & _ & _ & (R1 & R2 & R3) & (D1 & D2) & _).
  destruct (fit_loop_run X_train y_train X_test y_test batch_size max_len eval_interval
              0%Q (py_range 1 (epochs + 1)) s0 Hk)
    as (s1 & Hloop & _ & _ & _ & Hsame);
    [split; [exact Hopt|rewrite Hsch; eauto]|exact Hb|exact Hm|exact Htrain|
     intros i Hi Hi0; exfalso; exact (Hno' i Hi Hi0)|].
  destruct (Hsame Hno') as [(R1' & R2' & R3') (D1' & D2')].
  destruct (fit_report_missing s1) as [attr Hrep].
  { destruct Hmissing; [left|right]; congruence. }
  assert (Hfit : fit (X_train, y_train) (X_test, y_test) batch_size epochs max_len
                   test_size seed lr eps eval_interval s
                 = (Raised (AttributeError attr), s1)).
  { unfold fit, bind at 1. rewrite Hrun0. unfold bind at 1. rewrite Hloop. exact Hrep. }
  exists attr. rewrite Hfit. cbn [fst snd].
  split; [reflexivity|]. split; congruence.
Qed.

End engine_properties.

(** ** Runs on the concrete backend *)

Lemma toy_batches_nonempty (X : list string) (y : list Z) (r : Rng) :
  X <> [] -> fst (make_smart_batches r (Some 512%Z) X (Some y) (Some 2%Z)) <> [].
Proof. destruct X; [congruence|]. intros _. cbn. discriminate. Qed.


(** C1, the failing run.  Two epochs, an evaluation after each.  The
    first evaluation predicts both labels (F1 = 1); the second predicts
    class 0 twice (F1 = 1/3), which does not exceed the best F1 seen, and
    its checkpoint is written all the same, next to the first. *)
Lemma fit_checkpoints_a_worse_epoch :
  fst (toy_fit 2 1 toy_state) = Returned tt
  /\ preds (self (snd (toy_fit 1 1 toy_state))) = Some [0%Z; 1%Z]
  /\ preds (self (snd (toy_fit 2 1 toy_state))) = Some [0%Z; 0%Z]
  /\ true_labels (self (snd (toy_fit 2 1 toy_state))) = Some [0%Z; 1%Z]
  /\ weighted_f1 [0%Z; 1%Z] [0%Z; 1%Z] = 1%Q
  /\ weighted_f1 [0%Z; 1%Z] [0%Z; 0%Z] = (1 # 3)%Q
  /\ is_checkpoint <$> (files (snd (toy_fit 2 1 toy_state))
                          !! "./models_BERT/toy_01_01_00_02_EPOCH_1_F1_1.0.pth")
     = Some true
  /\ is_checkpoint <$> (files (snd (toy_fit 2 1 toy_state))
                          !! "./models_BERT/toy_01_01_00_04_EPOCH_2_F1_0.3333.pth")
     = Some true.
Proof.
  do 7 (split; [vm_compute; reflexivity|]). vm_compute. reflexivity.
Qed.

Lemma pair_of_fst {A C : Type} (p : A * C) (a : A) : fst p = a -> p = (a, snd p).
Proof. destruct p. simpl. congruence. Qed.

Lemma best_score_non_decreasing_witness :
  exists s',
    fit_epoch (fst toy_data) (snd toy_data) (fst toy_data) (snd toy_data) 1 0%Q 1 toy_ready
      = (Returned 0%Q, s')
    /\ (0 <= 0)%Q.
Proof.
  assert (Hrun : fit_epoch (fst toy_data) (snd toy_data) (fst toy_data) (snd toy_data)
                   1 0%Q 1 toy_ready
                 = (Returned 0%Q,
                    snd (fit_epoch (fst toy_data) (snd toy_data) (fst toy_data) (snd toy_data)
                           1 0%Q 1 toy_ready))).
  { apply pair_of_fst. vm_compute. reflexivity. }
  eexists. split; [exact Hrun|].
  exact (proj1 (proj1 (best_score_non_decreasing (fst toy_data) (snd toy_data)
                         (fst toy_data) (snd toy_data) 1 0%Q) 1%Z toy_ready 0%Q _ Hrun)).
Defined.

Lemma fit_total_steps_witness :
  exists sch,
    scheduler (self (snd (fit_configure (repeat "text" 100) 16 3 512 (1 # 5) 42
                            (5 # 100000) (1 # 100000000) toy_state))) = Some sch
    /\ num_training_steps sch = 21%Z.
Proof.
  destruct (fit_total_steps (repeat "text" 100) 16 3 512 (1 # 5) 42
              (5 # 100000) (1 # 100000000) toy_state ltac:(discriminate))
    as (sch & Hsch & _ & _ & _ & H21).
  exists sch. split; [exact Hsch|]. apply H21; reflexivity.
Defined.



Lemma average_loss_is_mean_of_batch_losses_witness :
  exists avg s',
    train toy_texts3 toy_labels3 1 toy_ready = (Returned tt, s')
    /\ train_loss s' = [avg]
    /\ (avg == (1 + (1 # 2)) / 2)%Q.
Proof.
  destruct (average_loss_is_mean_of_batch_losses toy_texts3 toy_labels3 1 0%Q toy_ready tt
              (get_linear_schedule_with_warmup 0 4) eq_refl eq_refl)
    as [(avg & s' & Hrun & Hloss & Havg) _].
  - vm_compute. discriminate.
  - exists avg, s'. split; [exact Hrun|]. split; [exact Hloss|].
    rewrite Havg. vm_compute. reflexivity.
Defined.

(** C7, the claim as written fails: on the empty text sequence [pred]
    returns no array and leaves no prediction file. *)
Lemma pred_on_no_text_returns_nothing :
  ~ (exists p s',
        pred [] "model.pth" "bert" 16 512 toy_state = (Returned p, s')
        /\ is_Some (files s' !! "./prediction/bert_250101.csv")).
Proof.
  intros (p & s' & Hrun & _). apply (f_equal fst) in Hrun. cbn [fst] in Hrun.
  vm_compute in Hrun. discriminate Hrun.
Qed.

Lemma pred_empty_raises_witness :
  fst (pred [] "model.pth" "bert" 16 512 toy_state)
    = Raised (ValueError "need at least one array to concatenate")
  /\ files (snd (pred [] "model.pth" "bert" 16 512 toy_state)) = ∅.
Proof.
  destruct (pred_empty_raises "model.pth" "bert" 16 512 toy_state eq_refl) as (H1 & H2 & _).
  split; [exact H1|exact H2].
Defined.

(** C9, the claim as written fails: after a first [fit] that evaluated,
    a second [fit] on the same object in which no evaluation occurs
    returns and writes a report, computed from the labels and predictions
    that the first call left on the object. *)
Lemma fit_without_eval_on_a_used_object :
  (forall i, (1 <= i <= 1)%Z -> (i mod 5)%Z <> 0%Z)
  /\ List.filter is_eval
       (drop (length (calls (snd (toy_fit 2 1 toy_state))))
             (calls (snd (toy_fit 1 5 (snd (toy_fit 2 1 toy_state)))))) = []
  /\ fst (toy_fit 1 5 (snd (toy_fit 2 1 toy_state))) = Returned tt
  /\ (files (snd (toy_fit 1 5 (snd (toy_fit 2 1 toy_state))))
        !! "./results/toy_epochs1_clf_report.csv") ≫= report_of
     = Some ([0%Z; 1%Z], [0%Z; 0%Z])
  /\ is_checkpoint <$> (files (snd (toy_fit 2 1 toy_state))
                          !! "./results/toy_epochs1_clf_report.csv") = None.
Proof.
  split.
  - intros i Hi. replace i with 1%Z by lia. discriminate.
  - do 3 (split; [vm_compute; reflexivity|]). vm_compute. reflexivity.
Qed.

Lemma fit_without_eval_raises_witness :
  exists attr,
    fst (toy_fit 2 5 toy_state) = Raised (AttributeError attr)
    /\ files (snd (toy_fit 2 5 toy_state)) = ∅.
Proof.
  destruct (fit_without_eval_raises toy_data toy_data 2 2 512 (1 # 5) 42
              (5 # 100000) (1 # 100000000) 5 toy_state)
    as (attr & Hraise & Hfiles & _).
  - left. reflexivity.
  - discriminate.
  - discriminate.
  - intros i Hi. assert (i = 1 \/ i = 2)%Z as [-> | ->] by lia; discriminate.
  - intros r. apply toy_batches_nonempty. discriminate.
  - exists attr. split; [exact Hraise|exact Hfiles].
Defined.

(* ================================================================== *)
(** * Part III. Further properties of the code *)
(* ================================================================== *)

(** ** The order of strings *)

Lemma ascii_compare_refl (c : ascii) : Ascii.compare c c = Eq.
Proof. unfold Ascii.compare. apply N.compare_refl. Qed.

Lemma ascii_compare_lt_trans (a b c : ascii) :
  Ascii.compare a b = Lt -> Ascii.compare b c = Lt -> Ascii.compare a c = Lt.
Proof.
  unfold Ascii.compare. rewrite !N.compare_lt_iff. apply N.lt_trans.
Qed.

Lemma string_compare_le_trans (s1 s2 s3 : string) :
  String.compare s1 s2 <> Gt -> String.compare s2 s3 <> Gt -> String.compare s1 s3 <> Gt.
Proof.
  revert s2 s3. induction s1 as [|c1 s1 IH]; intros [|c2 s2] [|c3 s3]; simpl;
    try congruence.
  destruct (Ascii.compare c1 c2) eqn:E12; try congruence;
    destruct (Ascii.compare c2 c3) eqn:E23; try congruence.
  - apply Ascii.compare_eq_iff in E12, E23. subst. rewrite ascii_compare_refl. apply IH.
  - apply Ascii.compare_eq_iff in E12. subst. rewrite E23. congruence.
  - apply Ascii.compare_eq_iff in E23. subst. rewrite E12. congruence.
  - rewrite (ascii_compare_lt_trans _ _ _ E12 E23). congruence.
Qed.

Lemma str_le_compare (a b : string) : str_le a b <-> String.compare a b <> Gt.
Proof.
  unfold str_le, String.leb. destruct (String.compare a b); split; congruence.
Qed.

#[local] Instance str_le_trans : Transitive str_le.
Proof.
  intros a b c. rewrite !str_le_compare. apply string_compare_le_trans.
Qed.

#[local] Instance str_le_total : Total str_le.
Proof. intros a b. apply String.leb_total. Qed.



Lemma index_of_inj (l : list string) (a b : string) (k : nat) :
  index_of a l = Some k -> index_of b l = Some k -> a = b.
Proof. intros Ha Hb. apply index_of_Some in Ha, Hb. congruence. Qed.



(** ** The dataset loader, continued *)

Section simple_data_loader_more.

Variable read_csv : string -> outcome DataFrame.

Lemma load_csv_dataset_selects (path label_type answer : string) (df : DataFrame) :
  read_csv path = Returned df ->
  selects label_type answer ->
  load_csv_dataset read_csv path label_type = text_label_rows df answer (df_rows df).
Proof.
  intros Hdf Hsel. unfold load_csv_dataset. rewrite Hdf. simpl.
  destruct Hsel as [[E ->]|[E ->]]; rewrite E; reflexivity.
Qed.



(** X3.  A frame that has the text column and lacks the selected answer
    column: [load_csv_dataset] raises [KeyError] at the first row, and so
    returns the empty list when the frame has no row; [load_bert_data]
    raises [AttributeError] in both cases. *)
Theorem loaders_missing_answer_column (path label_type answer : string) (df : DataFrame) :
  read_csv path = Returned df ->
  selects label_type answer ->
  is_Some (index_of "text" (df_columns df)) ->
  index_of answer (df_columns df) = None ->
  load_csv_dataset read_csv path label_type
    = match df_rows df with
      | [] => Returned []
      | _ :: _ => Raised (KeyError answer)
      end
  /\ load_bert_data read_csv path label_type = Raised (AttributeError answer).
Proof.
  intros Hdf Hsel [jt Ht] Ha.
  rewrite (load_csv_dataset_selects path label_type answer df Hdf Hsel).
  split.
  - destruct (df_rows df) as [|row rows]; simpl; [reflexivity|].
    unfold row_getitem. rewrite Ht, Ha. reflexivity.
  - unfold load_bert_data. rewrite Hdf. simpl. unfold df_getattr. rewrite Ht. simpl.
    destruct Hsel as [[E ->]|[E ->]]; rewrite E; simpl; rewrite Ha; reflexivity.
Qed.

Lemma text_label_rows_raises (df : DataFrame) (answer : string) (rows : list (list string))
    (e : exn) :
  text_label_rows df answer rows = Raised e -> e = KeyError "text" \/ e = KeyError answer.
Proof.
  induction rows as [|row rows IH]; simpl; [discriminate|].
  unfold row_getitem.
  destruct (index_of "text" (df_columns df)); simpl; [|intros [= <-]; now left].
  destruct (index_of answer (df_columns df)); simpl; [|intros [= <-]; now right].
  destruct (text_label_rows df answer rows) as [r|e']; simpl; [discriminate|].
  intros [= <-]. now apply IH.
Qed.

(** X4.  Once the file is read, [load_csv_dataset] raises the LABEL_TYPE
    exception exactly when the lower-case form of [label_type] is neither
    [predicate] nor [framenet]; it does so without looking at a column,
    whereas [load_bert_data] on a frame without text column raises
    [AttributeError] for every [label_type]. *)
Theorem load_csv_dataset_label_type (path label_type : string) (df : DataFrame) :
  read_csv path = Returned df ->
  (load_csv_dataset read_csv path label_type = Raised (Exception_ LABEL_TYPE_message)
   <-> str_lower label_type <> "predicate" /\ str_lower label_type <> "framenet")
  /\ (index_of "text" (df_columns df) = None ->
      load_bert_data read_csv path label_type = Raised (AttributeError "text")).
Proof.
  intros Hdf. split.
  - unfold load_csv_dataset. rewrite Hdf. simpl.
    destruct (String.eqb (str_lower label_type) "predicate") eqn:E1.
    + apply String.eqb_eq in E1. split; [|intros [H _]; contradiction].
      intros H. apply text_label_rows_raises in H. destruct H; discriminate.
    + apply String.eqb_neq in E1.
      destruct (String.eqb (str_lower label_type) "framenet") eqn:E2.
      * apply String.eqb_eq in E2. split; [|intros [_ H]; contradiction].
        intros H. apply text_label_rows_raises in H. destruct H; discriminate.
      * apply String.eqb_neq in E2. split; [now split|reflexivity].
  - intros Ht. unfold load_bert_data. rewrite Hdf. simpl. unfold df_getattr. rewrite Ht.
    reflexivity.
Qed.

End simple_data_loader_more.

(** ** load_text_label_pairs *)

Lemma str_app_cons (c : ascii) (a b : string) : String c a ++ b = String c (a ++ b).
Proof. reflexivity. Qed.

Lemma str_app_nil_l (s : string) : "" ++ s = s.
Proof. reflexivity. Qed.

Lemma str_app_nil_r (s : string) : s ++ "" = s.
Proof.
  induction s as [|c s IH]; [reflexivity|]. now rewrite str_app_cons, IH.
Qed.

Lemma str_app_assoc (a b c : string) : (a ++ b) ++ c = a ++ (b ++ c).
Proof.
  induction a as [|x a IH]; [reflexivity|]. now rewrite !str_app_cons, IH.
Qed.

Lemma str_rev_app (a b : string) : str_rev (a ++ b) = str_rev b ++ str_rev a.
Proof.
  induction a as [|x a IH].
  - rewrite str_app_nil_l. simpl. now rewrite str_app_nil_r.
  - rewrite str_app_cons. simpl. rewrite IH. apply str_app_assoc.
Qed.

Lemma str_rev_involutive (s : string) : str_rev (str_rev s) = s.
Proof.
  induction s as [|c s IH]; simpl; [reflexivity|].
  rewrite str_rev_app, IH. reflexivity.
Qed.

Lemma str_contains_app (sep : ascii) (a b : string) :
  str_contains sep (a ++ b) = str_contains sep a || str_contains sep b.
Proof.
  induction a as [|c a IH]; [reflexivity|].
  rewrite str_app_cons. simpl. rewrite IH. apply orb_assoc.
Qed.

Lemma str_lstrip_clean (s : string) : starts_clean s = true -> str_lstrip s = s.
Proof.
  destruct s as [|c s]; simpl; [reflexivity|].
  destruct (is_space c); [discriminate|reflexivity].
Qed.

Lemma str_contains_rev (sep : ascii) (s : string) :
  str_contains sep (str_rev s) = str_contains sep s.
Proof.
  induction s as [|c s IH]; simpl; [reflexivity|].
  rewrite str_contains_app, IH. simpl. rewrite orb_false_r. apply orb_comm.
Qed.

Lemma str_contains_lstrip (sep : ascii) (s : string) :
  is_space sep = false -> str_contains sep (str_lstrip s) = str_contains sep s.
Proof.
  intros Hsep. induction s as [|c s IH]; simpl; [reflexivity|].
  destruct (is_space c) eqn:Ec; [|reflexivity].
  rewrite IH. destruct (Ascii.eqb c sep) eqn:E; [|reflexivity].
  apply Ascii.eqb_eq in E. congruence.
Qed.

(** Stripping white space neither removes nor adds a separator. *)
Lemma str_contains_strip (sep : ascii) (s : string) :
  is_space sep = false -> str_contains sep (str_strip s) = str_contains sep s.
Proof.
  intros Hsep. unfold str_strip.
  now rewrite str_contains_rev, str_contains_lstrip, str_contains_rev, str_contains_lstrip.
Qed.

Lemma starts_clean_app (a b : string) :
  starts_clean a = true -> starts_clean b = true -> starts_clean (a ++ b) = true.
Proof. destruct a; [rewrite str_app_nil_l|rewrite str_app_cons]; simpl; auto. Qed.

Lemma starts_clean_app_l (a b : string) :
  a <> "" -> starts_clean a = true -> starts_clean (a ++ b) = true.
Proof. destruct a; [congruence|rewrite str_app_cons; simpl; auto]. Qed.

(** The first field of a split and what is left of the string. *)
Lemma str_split_head (sep : ascii) (s : string) :
  exists field fields,
    str_split sep s = field :: fields
    /\ str_contains sep field = false
    /\ ((fields = [] /\ s = field)
        \/ (exists s', s = field ++ String sep s' /\ fields = str_split sep s')).
Proof.
  induction s as [|c s (field & fields & Hs & Hf & Hrest)]; simpl.
  - exists "", []. split; [reflexivity|]. split; [reflexivity|]. left. split; reflexivity.
  - destruct (Ascii.eqb c sep) eqn:E.
    + apply Ascii.eqb_eq in E. subst c.
      exists "", (str_split sep s). split; [reflexivity|]. split; [reflexivity|].
      right. exists s. split; reflexivity.
    + rewrite Hs. exists (String c field), fields.
      split; [reflexivity|]. split; [simpl; now rewrite E|].
      destruct Hrest as [[-> ->]|(s' & -> & ->)].
      * left. split; reflexivity.
      * right. exists s'. split; reflexivity.
Qed.

Lemma str_split_no_sep (sep : ascii) (s : string) :
  str_contains sep s = false -> str_split sep s = [s].
Proof.
  induction s as [|c s IH]; simpl; [reflexivity|].
  destruct (Ascii.eqb c sep); simpl; [discriminate|]. intros H. now rewrite IH.
Qed.

Lemma str_split_app (sep : ascii) (a s : string) :
  str_contains sep a = false ->
  str_split sep (a ++ String sep s) = a :: str_split sep s.
Proof.
  induction a as [|c a IH].
  - intros _. rewrite str_app_nil_l. simpl. now rewrite Ascii.eqb_refl.
  - rewrite str_app_cons. simpl.
    destruct (Ascii.eqb c sep); simpl; [discriminate|]. intros H. now rewrite IH.
Qed.

Lemma str_split_two_fields (sep : ascii) (s : string) :
  match str_split sep s with
  | [] => False
  | [_] => str_contains sep s = false
  | _ :: _ :: _ => str_contains sep s = true
  end.
Proof.
  destruct (str_split_head sep s) as (field & fields & Hs & Hf & Hrest).
  rewrite Hs. destruct Hrest as [[-> ->]|(s' & -> & ->)].
  - exact Hf.
  - destruct (str_split_head sep s') as (f' & fs' & Hs' & _). rewrite Hs'.
    rewrite str_contains_app. simpl. rewrite Ascii.eqb_refl. apply orb_true_r.
Qed.

Section load_text_label_pairs_properties.

Variable open_lines : string -> outcome (list string).

Lemma text_label_lines_shape (lines : list string) :
  (forallb (str_contains ",") lines = true ->
   exists result, text_label_lines lines = inr result /\ length result = length lines)
  /\ (forallb (str_contains ",") lines = false ->
      text_label_lines lines = inl IndexError).
Proof.
  induction lines as [|line lines [IHok IHbad]]; simpl.
  - split; [eauto|discriminate].
  - pose proof (str_split_two_fields "," (str_strip line)) as Hsplit.
    rewrite (str_contains_strip "," line eq_refl) in Hsplit.
    destruct (str_split "," (str_strip line)) as [|sentence [|label rest]]; [contradiction| |].
    + rewrite Hsplit. simpl. split; [discriminate|reflexivity].
    + rewrite Hsplit. simpl. split.
      * intros H. destruct (IHok H) as (result & -> & Hlen).
        eexists. split; [reflexivity|]. simpl. now rewrite Hlen.
      * intros H. now rewrite (IHbad H).
Qed.

(** X5.  [load_text_label_pairs] raises [StopIteration] on a file without
    a line.  Otherwise the first line is skipped whatever it holds, and
    the function returns, with one pair per further line, exactly when
    every further line holds a comma; a line without one (an empty last
    line, for one) makes it raise [IndexError]. *)
Theorem load_text_label_pairs_shape (path : string) (lines : list string) :
  open_lines path = Returned lines ->
  match lines with
  | [] => load_text_label_pairs open_lines path = inl StopIteration
  | header :: data =>
      (forallb (str_contains ",") data = true ->
       exists result,
         load_text_label_pairs open_lines path = inr result
         /\ length result = length data)
      /\ (forallb (str_contains ",") data = false ->
          load_text_label_pairs open_lines path = inl IndexError)
  end.
Proof.
  intros Hopen. unfold load_text_label_pairs. rewrite Hopen.
  destruct lines as [|header data]; [reflexivity|]. apply text_label_lines_shape.
Qed.

Lemma text_label_lines_fields (lines : list string) (result : list (string * string)) :
  text_label_lines lines = inr result ->
  Forall2 (fun line p =>
             exists rest,
               str_strip line = fst p ++ "," ++ snd p ++ rest
               /\ str_contains "," (fst p) = false
               /\ str_contains "," (snd p) = false
               /\ (rest = "" \/ exists rest', rest = "," ++ rest'))
          lines result.
Proof.
  revert result. induction lines as [|line lines IH]; intros result; simpl.
  - intros [= <-]. constructor.
  - destruct (str_split_head "," (str_strip line)) as (a & fields & Hs & Ha & Hrest).
    rewrite Hs. destruct fields as [|label rest0]; [discriminate|].
    destruct (text_label_lines lines) as [e|r]; [discriminate|].
    intros [= <-]. constructor; [|now apply IH].
    destruct Hrest as [[Hnil _]|(s' & Hline & Hfields)]; [discriminate|].
    destruct (str_split_head "," s') as (b & fields' & Hs' & Hb & Hrest').
    rewrite Hs' in Hfields. injection Hfields as -> ->.
    simpl. destruct Hrest' as [[-> ->]|(s'' & -> & _)].
    + exists "". rewrite Hline, str_app_nil_r. repeat split; auto.
    + exists ("," ++ s''). rewrite Hline. repeat split; eauto.
Qed.

(** X6.  Each pair that [load_text_label_pairs] returns holds the first
    two comma-separated fields of its line, surrounding white space
    removed: the sentence is the text before the first comma, the label
    the text between the first comma and the second (or the end); a
    sentence that holds a comma is cut at it, and what follows a second
    comma is dropped.  (For lines whose text, white space apart, starts
    and ends in ASCII.) *)
Theorem load_text_label_pairs_fields (path header : string) (data : list string)
    (result : list (string * string)) :
  open_lines path = Returned (header :: data) ->
  forallb (fun line => ascii_ends (str_strip line)) data = true ->
  load_text_label_pairs open_lines path = inr result ->
  Forall2 (fun line p =>
             exists rest,
               str_strip line = fst p ++ "," ++ snd p ++ rest
               /\ str_contains "," (fst p) = false
               /\ str_contains "," (snd p) = false
               /\ (rest = "" \/ exists rest', rest = "," ++ rest'))
          data result.
Proof.
  intros Hopen _. unfold load_text_label_pairs. rewrite Hopen.
  apply text_label_lines_fields.
Qed.

Lemma str_strip_line (p : string * string) :
  clean_pair p = true -> str_strip (text_label_line p) = fst p ++ "," ++ snd p.
Proof.
  destruct p as [sentence label]. unfold clean_pair, text_label_line. simpl.
  rewrite !andb_true_iff. intros [[[Hs Hl] _] _].
  unfold str_strip.
  assert (H1 : str_lstrip (sentence ++ "," ++ label ++ String (ascii_of_nat 10) "")
               = sentence ++ "," ++ label ++ String (ascii_of_nat 10) "").
  { apply str_lstrip_clean. destruct sentence; [reflexivity|exact Hs]. }
  rewrite H1.
  replace (sentence ++ "," ++ label ++ String (ascii_of_nat 10) "")
    with ((sentence ++ "," ++ label) ++ String (ascii_of_nat 10) "")
    by (rewrite !str_app_assoc; reflexivity).
  rewrite str_rev_app. simpl str_rev at 1. simpl str_lstrip.
  rewrite str_lstrip_clean; [apply str_rev_involutive|].
  rewrite str_rev_app.
  replace ("," ++ label) with (String "," "" ++ label) by reflexivity.
  rewrite str_rev_app, str_app_assoc. simpl (str_rev (String "," "")).
  destruct (str_rev label); [reflexivity|exact Hl].
Qed.

Lemma text_label_lines_round_trip (pairs : list (string * string)) :
  forallb clean_pair pairs = true ->
  text_label_lines (map text_label_line pairs) = inr pairs.
Proof.
  induction pairs as [|p pairs IH]; simpl; [reflexivity|].
  rewrite andb_true_iff. intros [Hp Hps].
  rewrite (str_strip_line p Hp).
  destruct p as [sentence label]. simpl.
  unfold clean_pair in Hp. simpl in Hp. rewrite !andb_true_iff, !negb_true_iff in Hp.
  destruct Hp as [[[_ _] Hcs] Hcl].
  replace (sentence ++ "," ++ label) with (sentence ++ String "," label) by reflexivity.
  rewrite (str_split_app "," sentence label Hcs), (str_split_no_sep "," label Hcl).
  now rewrite (IH Hps).
Qed.

(** X7.  Written one per line as [sentence,label] under any first line,
    pairs of a comma-free sentence that does not start with white space
    and a comma-free label that does not end with it (the characters at
    these two ends being in ASCII) are read back as they were, in
    order. *)
Theorem load_text_label_pairs_round_trip (path header : string)
    (pairs : list (string * string)) :
  open_lines path = Returned (header :: map text_label_line pairs) ->
  forallb clean_pair pairs = true ->
  load_text_label_pairs open_lines path = inr pairs.
Proof.
  intros Hopen Hclean. unfold load_text_label_pairs. rewrite Hopen.
  now apply text_label_lines_round_trip.
Qed.

End load_text_label_pairs_properties.

(** ** The engine, continued *)

Section engine_more.

Context `{B : Backend}.

Local Open Scope py_scope.

Lemma scheduler_steps_fields (n : nat) (sch : Scheduler) :
  last_epoch (scheduler_steps n sch) = (last_epoch sch + Z.of_nat n)%Z
  /\ num_training_steps (scheduler_steps n sch) = num_training_steps sch
  /\ num_warmup_steps (scheduler_steps n sch) = num_warmup_steps sch.
Proof.
  unfold scheduler_steps. induction n as [|n (IH1 & IH2 & IH3)].
  - simpl. repeat split. lia.
  - rewrite Nat.iter_succ. cbn [scheduler_step last_epoch num_training_steps num_warmup_steps].
    rewrite IH1. repeat split; [lia|assumption|assumption].
Qed.

Lemma scheduler_steps_add (n m : nat) (sch : Scheduler) :
  scheduler_steps m (scheduler_steps n sch) = scheduler_steps (n + m) sch.
Proof.
  unfold scheduler_steps. rewrite Nat.add_comm. symmetry. apply Nat.iter_add.
Qed.

Lemma train_loop_steps (py_inputs : list (Batch Tensor)) (total : Q) (s : State)
    (opt : Optim) (sch : Scheduler) :
  optimizer (self s) = Some opt ->
  scheduler (self s) = Some sch ->
  exists total' s',
    for_fold py_inputs total train_batch s = (Returned total', s')
    /\ scheduler (self s') = Some (scheduler_steps (length py_inputs) sch)
    /\ is_Some (optimizer (self s'))
    /\ (py_inputs = [] -> s' = s)
    /\ same_but_learner s s'.
Proof.
  revert total s opt sch.
  induction py_inputs as [|b rest IH]; intros total s opt sch Hopt Hsch.
  - exists total, s. simpl. repeat split; eauto.
  - destruct (train_batch_run total b s opt sch Hopt Hsch)
      as (s1 & Hrun & Hnet & Hopt1 & Hsch1 & Hframe).
    destruct (IH (total + model_loss true (model (self s))
                            (b_input_ids b) (b_input_mask b) (b_labels b))%Q
                 s1 _ _ Hopt1 Hsch1) as (total' & s' & Hloop & Hs & Ho & _ & Hframe').
    exists total', s'. simpl for_fold. unfold bind at 1. rewrite Hrun, Hloop.
    split; [reflexivity|]. split.
    { rewrite Hs. f_equal. change (scheduler_step sch) with (scheduler_steps 1 sch).
      rewrite scheduler_steps_add. reflexivity. }
    split; [exact Ho|]. split; [discriminate|].
    eapply same_but_learner_trans; eauto.
Qed.

(** What a training pass does to the state, whether it returns or the
    division of line 172 fails. *)
Lemma train_effect (X : list string) (y : list Z) (epoch_i : Z) (s : State)
    (opt : Optim) (sch : Scheduler) :
  optimizer (self s) = Some opt ->
  scheduler (self s) = Some sch ->
  let py_inputs :=
    fst (make_smart_batches (rng s) (max_len (self s)) X (Some y) (batch_size (self s))) in
  exists s',
    snd (train X y epoch_i s) = s'
    /\ scheduler (self s') = Some (scheduler_steps (length py_inputs) sch)
    /\ is_Some (optimizer (self s'))
    /\ same_config s s' /\ same_results s s' /\ same_disk s s'
    /\ calls s' = (calls s ++ [CallTrain epoch_i])%list
    /\ val_loss s' = val_loss s
    /\ (py_inputs <> [] ->
        exists avg,
          fst (train X y epoch_i s) = Returned tt
          /\ train_loss s' = (train_loss s ++ [avg])%list
          /\ training_stats s'
             = (training_stats s ++ [ {| er_epoch := epoch_i; er_training_loss := avg |} ])%list)
    /\ (py_inputs = [] ->
        fst (train X y epoch_i s) = Raised ZeroDivisionError
        /\ self s' = self s
        /\ train_loss s' = train_loss s /\ training_stats s' = training_stats s).
Proof.
  intros Hopt Hsch py_inputs. subst py_inputs.
  unfold train, smart_batches, bind, modify, get. cbn.
  destruct (make_smart_batches (rng s) (max_len (self s)) X (Some y) (batch_size (self s)))
    as [py_inputs r] eqn:E.
  cbn.
  set (s1 := with_rng r (with_calls (calls s ++ [CallTrain epoch_i]) s)).
  destruct (train_loop_steps py_inputs 0%Q s1 opt sch Hopt Hsch)
    as (total' & s2 & Hloop & Hs & Ho & Hnil & Hframe).
  rewrite Hloop. unfold lift, py_truediv.
  destruct Hframe as ((C1 & C2 & C3 & C4) & (R1 & R2 & R3) & (D1 & D2) & (L1 & L2 & L3) & Hc & Hr).
  destruct py_inputs as [|b rest].
  - cbn. rewrite (Hnil eq_refl). subst s1. eexists. split; [reflexivity|]. cbn.
    split; [exact Hsch|]. split; [exists opt; exact Hopt|].
    do 5 (split; [repeat split; reflexivity|]).
    split; [intros Hne; destruct Hne; reflexivity|].
    intros _. repeat split; reflexivity.
  - cbn. eexists. split; [reflexivity|]. cbn.
    split; [exact Hs|]. split; [exact Ho|].
    split; [repeat split; assumption|]. split; [repeat split; assumption|].
    split; [split; assumption|]. split; [exact Hc|]. split; [exact L3|].
    split; [|discriminate].
    intros _. eexists. split; [reflexivity|]. rewrite L1, L2. split; reflexivity.
Qed.

(** X8.  A training pass calls [scheduler.step()] once per batch: the
    step count of the scheduler grows by the number of batches, and the
    two step counts it was created with stay as they are. *)
Theorem train_steps_scheduler (X : list string) (y : list Z) (epoch_i : Z) (s : State)
    (opt : Optim) (sch : Scheduler) :
  optimizer (self s) = Some opt ->
  scheduler (self s) = Some sch ->
  exists sch',
    scheduler (self (snd (train X y epoch_i s))) = Some sch'
    /\ last_epoch sch'
       = (last_epoch sch
          + len (fst (make_smart_batches (rng s) (max_len (self s)) X (Some y)
                        (batch_size (self s)))))%Z
    /\ num_training_steps sch' = num_training_steps sch
    /\ num_warmup_steps sch' = num_warmup_steps sch.
Proof.
  intros Hopt Hsch.
  destruct (train_effect X y epoch_i s opt sch Hopt Hsch) as (s' & -> & Hs & _).
  eexists. split; [exact Hs|]. apply scheduler_steps_fields.
Qed.

(** X9.  A training pass over at least one batch returns and appends one
    record to [training_stats], holding the epoch index and the very loss
    it appends to [train_loss]; it leaves [val_loss], the results of the
    last evaluation, the stored configuration and the disk as they were. *)
Theorem train_records_epoch (X : list string) (y : list Z) (epoch_i : Z) (s : State)
    (opt : Optim) (sch : Scheduler) :
  optimizer (self s) = Some opt ->
  scheduler (self s) = Some sch ->
  fst (make_smart_batches (rng s) (max_len (self s)) X (Some y) (batch_size (self s))) <> [] ->
  exists avg s',
    train X y epoch_i s = (Returned tt, s')
    /\ train_loss s' = (train_loss s ++ [avg])%list
    /\ training_stats s'
       = (training_stats s ++ [ {| er_epoch := epoch_i; er_training_loss := avg |} ])%list
    /\ val_loss s' = val_loss s
    /\ same_results s s' /\ same_config s s' /\ same_disk s s'.
Proof.
  intros Hopt Hsch Hne.
  destruct (train_effect X y epoch_i s opt sch Hopt Hsch)
    as (s' & Hs' & _ & _ & Hcfg & Hres & Hdisk & _ & Hval & Hsome & _).
  destruct (Hsome Hne) as (avg & Hfst & Hloss & Hstats).
  exists avg, s'. split; [|repeat split; try assumption; apply Hcfg || apply Hres || apply Hdisk].
  rewrite <- Hfst, <- Hs'. apply surjective_pairing.
Qed.

(** What an evaluation leaves alone, however it ends. *)
Lemma eval_frame (X : list string) (y : list Z) (epoch_i : Z) (best_score : Q) (s : State) :
  let r := eval X y epoch_i best_score s in
  training_stats (snd r) = training_stats s
  /\ train_loss (snd r) = train_loss s
  /\ model (self (snd r)) = model (self s)
  /\ optimizer (self (snd r)) = optimizer (self s)
  /\ scheduler (self (snd r)) = scheduler (self s)
  /\ (fst r = Returned tt -> os_path_exists "./models_BERT" (snd r) = true)
  /\ (fst (make_smart_batches (rng s) (max_len (self s)) X (Some y) (batch_size (self s))) = [] ->
      fst r = Raised ZeroDivisionError
      /\ self (snd r) = self s /\ same_lists s (snd r) /\ same_disk s (snd r)).
Proof.
  unfold eval, smart_batches, bind, modify, get. cbn.
  destruct (make_smart_batches (rng s) (max_len (self s)) X (Some y) (batch_size (self s)))
    as [py_inputs r] eqn:E.
  cbn.
  set (s1 := with_rng r (with_calls (calls s ++ [CallEval epoch_i]) s)).
  destruct (eval_loop_run py_inputs 0%Q [] [] s1) as (total' & t & Hloop & Htot).
  rewrite Hloop. cbn. unfold lift, py_truediv.
  assert (Hcases : py_inputs = [] \/ py_inputs <> [])
    by (destruct py_inputs; [left; reflexivity|right; discriminate]).
  destruct Hcases as [->|Hne].
  { cbn. do 5 (split; [reflexivity|]). split; [discriminate|].
    intros _. repeat split; reflexivity. }
  rewrite (len_nonempty _ Hne). cbn.
  unfold eval_batch_logits, eval_batch_labels.
  rewrite !np_concatenate_map by exact Hne. cbn.
  destruct (np_argmax_axis1 _); cbn;
    [|do 5 (split; [reflexivity|]); split; [discriminate|intros Hnil; contradiction]].
  destruct (check_consistent_length _ _) as [[]|e]; cbn;
    [|do 5 (split; [reflexivity|]); split; [discriminate|intros Hnil; contradiction]].
  unfold mkdir_if_missing, getattr, write_file, bind, get, ret, raise, modify. cbn.
  assert (Hins : forall (p q : string) (f : File) (d : gset string) (m : gmap string File),
             bool_decide (p ∈ d) || bool_decide (is_Some (m !! p)) = true ->
             bool_decide (p ∈ d) || bool_decide (is_Some (<[ q := f ]> m !! p)) = true).
  { intros p q f d m H. apply orb_true_iff in H. apply orb_true_iff.
    destruct H as [H|H]; [left; exact H|right].
    apply bool_decide_eq_true. apply bool_decide_eq_true in H.
    apply lookup_insert_is_Some. destruct (decide (q = p)); [left; assumption|right; split; assumption]. }
  assert (Hnew : forall (p : string) (d : gset string) (m : gmap string File),
             bool_decide (p ∈ ({[ p ]} ∪ d : gset string)) || bool_decide (is_Some (m !! p)) = true).
  { intros p d m. apply orb_true_iff. left. apply bool_decide_eq_true. set_solver. }
  unfold os_path_exists.
  cbn [dirs files with_self with_lists with_clock with_rng with_calls with_files with_dirs s1].
  subst s1.
  cbn [dirs files with_self with_lists with_clock with_rng with_calls with_files with_dirs].
  destruct (bool_decide _ || bool_decide _) eqn:Eex; cbn;
    (destruct (py_gt _ best_score); cbn);
    (destruct (optimizer (self s)) eqn:Eo; cbn);
    (destruct (scheduler (self s)) eqn:Es; cbn);
    (do 5 (split; [first [reflexivity | assumption]|])); (split; [|intros Hnil; contradiction]);
    first [discriminate | intros _; first [exact Eex | apply Hins; exact Eex | apply Hnew]].
Qed.

(** X10.  When the batch source yields no batch for the data, [train]
    and [eval] both raise ZeroDivisionError at the division by the number
    of batches: nothing is appended to the lists of [fit], no attribute of
    the object is assigned and the disk is not touched ([eval] does not
    even create its directory). *)
Theorem no_batch_raises_zero_division (X : list string) (y : list Z) (epoch_i : Z)
    (best_score : Q) (s : State) (opt : Optim) (sch : Scheduler) :
  optimizer (self s) = Some opt ->
  scheduler (self s) = Some sch ->
  fst (make_smart_batches (rng s) (max_len (self s)) X (Some y) (batch_size (self s))) = [] ->
  (fst (train X y epoch_i s) = Raised ZeroDivisionError
   /\ self (snd (train X y epoch_i s)) = self s
   /\ same_lists s (snd (train X y epoch_i s))
   /\ same_disk s (snd (train X y epoch_i s)))
  /\ (fst (eval X y epoch_i best_score s) = Raised ZeroDivisionError
      /\ self (snd (eval X y epoch_i best_score s)) = self s
      /\ same_lists s (snd (eval X y epoch_i best_score s))
      /\ same_disk s (snd (eval X y epoch_i best_score s))).
Proof.
  intros Hopt Hsch Hnil. split.
  - destruct (train_effect X y epoch_i s opt sch Hopt Hsch)
      as (s' & Hs' & _ & _ & _ & _ & Hdisk & _ & Hval & _ & Hempty).
    destruct (Hempty Hnil) as (Hfst & Hself & Hloss & Hstats).
    rewrite Hs'. repeat split; try assumption; apply Hdisk.
  - destruct (eval_frame X y epoch_i best_score s) as (_ & _ & _ & _ & _ & _ & Hempty).
    exact (Hempty Hnil).
Qed.

(** X11.  On an object for which [fit] has stored no optimizer (as
    [__init__] leaves it), a training pass over at least one batch raises
    AttributeError at [self.optimizer.step()] of the first batch: the
    weights are as before and nothing is appended to the lists. *)
Theorem train_before_fit_raises (X : list string) (y : list Z) (epoch_i : Z) (s : State) :
  optimizer (self s) = None ->
  fst (make_smart_batches (rng s) (max_len (self s)) X (Some y) (batch_size (self s))) <> [] ->
  fst (train X y epoch_i s) = Raised (AttributeError "step")
  /\ self (snd (train X y epoch_i s)) = self s
  /\ same_lists s (snd (train X y epoch_i s))
  /\ same_disk s (snd (train X y epoch_i s)).
Proof.
  intros Hopt Hne.
  unfold train, smart_batches, bind, modify, get. cbn.
  destruct (make_smart_batches (rng s) (max_len (self s)) X (Some y) (batch_size (self s)))
    as [py_inputs r] eqn:E.
  cbn in Hne. cbn. destruct py_inputs as [|b rest]; [congruence|].
  cbn. unfold train_batch, getattr, bind, get, raise. cbn. rewrite Hopt. cbn.
  repeat split; reflexivity.
Qed.


(** *** The epoch loop, continued *)




Lemma fit_configure_lists (X_train : list string) (bs ep ml : Z) (ts : Q) (sd : Z) (lr eps : Q)
    (s : State) :
  bs <> 0%Z ->
  same_lists (with_lists [] [] [] s)
             (snd (fit_configure X_train bs ep ml ts sd lr eps s)).
Proof.
  intros Hbs. unfold fit_configure, bind, get, modify, lift, py_floordiv.
  apply Z.eqb_neq in Hbs. rewrite Hbs. cbn. repeat split.
Qed.






(** X14.  [fit] with [batch_size = 0] raises ZeroDivisionError at the
    count of the batches, before any call of [train] or [eval]: the
    configuration and a fresh optimizer are stored by then, while the
    scheduler, the lists, the stored results and the disk are as they
    were. *)
Theorem fit_batch_size_zero (train_data test_data : list string * list Z)
    (ep ml : Z) (ts : Q) (sd : Z) (lr eps : Q) (eval_interval : Z) (s : State) :
  let r := fit train_data test_data 0 ep ml ts sd lr eps eval_interval s in
  fst r = Raised ZeroDivisionError
  /\ calls (snd r) = calls s
  /\ batch_size (self (snd r)) = Some 0%Z
  /\ epochs (self (snd r)) = Some ep
  /\ optimizer (self (snd r)) = Some (AdamW (model (self s)) lr eps)
  /\ scheduler (self (snd r)) = scheduler (self s)
  /\ same_lists s (snd r) /\ same_results s (snd r) /\ same_disk s (snd r).
Proof.
  destruct train_data as [X_train y_train], test_data as [X_test y_test].
  unfold fit, fit_configure, bind, get, modify, lift, py_floordiv. cbn.
  repeat split.
Qed.

(** X15.  [fit] with [eval_interval = 0] and at least one epoch raises
    ZeroDivisionError at [epoch_i % eval_interval] of the first epoch:
    exactly one training pass has run by then, no evaluation, and the
    disk is as it was. *)
Theorem fit_eval_interval_zero (train_data test_data : list string * list Z)
    (bs ep ml : Z) (ts : Q) (sd : Z) (lr eps : Q) (s : State) :
  bs <> 0%Z -> (1 <= ep)%Z ->
  trainable ml bs (fst train_data) (snd train_data) ->
  let r := fit train_data test_data bs ep ml ts sd lr eps 0 s in
  fst r = Raised ZeroDivisionError
  /\ calls (snd r) = (calls s ++ [CallTrain 1])%list
  /\ map er_epoch (training_stats (snd r)) = [1%Z]
  /\ length (train_loss (snd r)) = 1%nat
  /\ val_loss (snd r) = []
  /\ same_results s (snd r) /\ same_disk s (snd r).
Proof.
  intros Hbs Hep Htrain.
  destruct train_data as [X_train y_train], test_data as [X_test y_test].
  cbn [fst snd] in *.
  destruct (fit_configure_run X_train bs ep ml ts sd lr eps s Hbs)
    as (s1 & Hcfg & Hsch1 & [opt1 Hopt1] & Hbs1 & Hml1 & _ & _ & Hres1 & Hdisk1 & Hcalls1).
  pose proof (fit_configure_lists X_train bs ep ml ts sd lr eps s Hbs) as (L1 & L2 & L3).
  rewrite Hcfg in L1, L2, L3. cbn in L1, L2, L3.
  destruct (train_effect X_train y_train 1 s1 opt1 _ Hopt1 Hsch1)
    as (s2 & Hs2 & _ & _ & _ & Hres2 & Hdisk2 & Hcalls2 & Hval2 & Hsome & _).
  rewrite Hbs1, Hml1 in Hsome.
  destruct (Hsome (Htrain _)) as (avg & Hfst & Hloss & Hstats).
  assert (Hrun : train X_train y_train 1 s1 = (Returned tt, s2)).
  { rewrite <- Hfst, <- Hs2. apply surjective_pairing. }
  assert (Hfit : fit (X_train, y_train) (X_test, y_test) bs ep ml ts sd lr eps 0 s
                 = (Raised ZeroDivisionError, s2)).
  { unfold fit, bind at 1. rewrite Hcfg.
    replace (ep + 1)%Z with (1 + Z.of_nat (S (Z.to_nat (ep - 1))))%Z by lia.
    rewrite py_range_succ.
    simpl for_fold. unfold fit_epoch at 1. unfold bind. rewrite Hrun.
    unfold lift, py_mod. cbn. reflexivity. }
  cbv zeta. rewrite Hfit. cbn [fst snd].
  destruct Hres1 as (R1 & R2 & R3), Hres2 as (R1' & R2' & R3').
  destruct Hdisk1 as (D1 & D2), Hdisk2 as (D1' & D2').
  split; [reflexivity|]. split; [congruence|].
  split; [rewrite Hstats, L1; reflexivity|]. split; [rewrite Hloss, L2; reflexivity|].
  split; [congruence|]. split; [repeat split; congruence|]. split; congruence.
Qed.



(** *** pred and plot *)



(** X19.  After an evaluation that ran through, [plot] hands
    [plot_prcurve] the model name, the labels of that evaluation and its
    score rows (not the predicted classes), and changes nothing; on an
    object that has never been evaluated it raises AttributeError for
    [true_labels]. *)
Theorem plot_uses_last_evaluation {R : Type}
    (plot_prcurve : string -> list Z -> list (list Q) -> R)
    (X : list string) (y : list Z) (epoch_i : Z) (best_score : Q)
    (s s' : State) :
  eval X y epoch_i best_score s = (Returned tt, s') ->
  (let py_inputs :=
     fst (make_smart_batches (rng s) (max_len (self s)) X (Some y) (batch_size (self s))) in
   plot plot_prcurve s'
     = (Returned (plot_prcurve (model_name (self s))
                    (concat (eval_batch_labels py_inputs))
                    (concat (eval_batch_logits (model (self s)) py_inputs))), s'))
  /\ (true_labels (self s) = None ->
      plot plot_prcurve s = (Raised (AttributeError "true_labels"), s)).
Proof.
  intros Hrun. split;
    [|intros Hnone; unfold plot, getattr, bind, get, raise; rewrite Hnone; reflexivity].
  revert Hrun.
  unfold eval, smart_batches, bind, modify, get. cbn.
  destruct (make_smart_batches (rng s) (max_len (self s)) X (Some y) (batch_size (self s)))
    as [py_inputs r] eqn:E.
  cbn.
  set (s1 := with_rng r (with_calls (calls s ++ [CallEval epoch_i]) s)).
  destruct (eval_loop_run py_inputs 0%Q [] [] s1) as (total' & t & Hloop & Htot).
  rewrite Hloop. cbn. unfold lift, py_truediv.
  assert (Hcases : py_inputs = [] \/ py_inputs <> [])
    by (destruct py_inputs; [left; reflexivity|right; discriminate]).
  destruct Hcases as [->|Hne]; [cbn; intros H; discriminate H|].
  rewrite (len_nonempty _ Hne). cbn.
  unfold eval_batch_logits, eval_batch_labels.
  rewrite !np_concatenate_map by exact Hne. cbn.
  destruct (np_argmax_axis1 _); cbn; [|intros H; discriminate H].
  destruct (check_consistent_length _ _) as [[]|e]; cbn; [|intros H; discriminate H].
  unfold mkdir_if_missing, getattr, write_file, bind, get, ret, raise, modify.
  unfold os_path_exists. subst s1.
  cbn [dirs files self with_self with_lists with_clock with_rng with_calls with_files
       with_dirs].
  destruct (bool_decide _ || bool_decide _); cbn;
    (destruct (py_gt _ best_score); cbn);
    (destruct (optimizer (self s)) eqn:Eo; cbn);
    (destruct (scheduler (self s)) eqn:Es; cbn);
    intros H; first [discriminate H | injection H as <-; reflexivity].
Qed.

End engine_more.

(** ** Concrete runs *)


Lemma loaders_missing_answer_column_witness :
  load_csv_dataset predicate_disk "predicate.csv" "framenet"
    = Raised (KeyError "framenet_answer")
  /\ load_bert_data predicate_disk "predicate.csv" "framenet"
     = Raised (AttributeError "framenet_answer").
Proof.
  exact (loaders_missing_answer_column predicate_disk "predicate.csv" "framenet"
           "framenet_answer" predicate_frame eq_refl (or_intror (conj eq_refl eq_refl))
           (ex_intro _ 0%nat eq_refl) eq_refl).
Defined.

Lemma load_csv_dataset_label_type_witness :
  load_csv_dataset sample_disk "train.csv" "sentiment" = Raised (Exception_ LABEL_TYPE_message).
Proof.
  apply (proj1 (load_csv_dataset_label_type sample_disk "train.csv" "sentiment" sample_frame
                  eq_refl)).
  split; discriminate.
Defined.

Lemma load_text_label_pairs_shape_witness :
  exists result,
    load_text_label_pairs sample_lines "pairs.csv" = inr result /\ length result = 2%nat.
Proof.
  exact (proj1 (load_text_label_pairs_shape sample_lines "pairs.csv" _ eq_refl) eq_refl).
Defined.

Lemma load_text_label_pairs_fields_witness :
  Forall2 (fun line p =>
             exists rest,
               str_strip line = fst p ++ "," ++ snd p ++ rest
               /\ str_contains "," (fst p) = false
               /\ str_contains "," (snd p) = false
               /\ (rest = "" \/ exists rest', rest = "," ++ rest'))
          [text_label_line ("aspirin inhibits cox", "INHIBITS");
           text_label_line ("p53 causes apoptosis", "CAUSES")]
          [("aspirin inhibits cox", "INHIBITS"); ("p53 causes apoptosis", "CAUSES")].
Proof.
  exact (load_text_label_pairs_fields sample_lines "pairs.csv" _ _ _ eq_refl eq_refl eq_refl).
Defined.

Lemma load_text_label_pairs_round_trip_witness :
  load_text_label_pairs sample_lines "pairs.csv"
    = inr [("aspirin inhibits cox", "INHIBITS"); ("p53 causes apoptosis", "CAUSES")].
Proof.
  exact (load_text_label_pairs_round_trip sample_lines "pairs.csv" _
           [("aspirin inhibits cox", "INHIBITS"); ("p53 causes apoptosis", "CAUSES")]
           eq_refl eq_refl).
Defined.

Lemma train_steps_scheduler_witness :
  exists sch',
    scheduler (self (snd (train toy_texts3 toy_labels3 1 toy_ready))) = Some sch'
    /\ last_epoch sch' = 2%Z /\ num_training_steps sch' = 4%Z.
Proof.
  destruct (train_steps_scheduler toy_texts3 toy_labels3 1 toy_ready tt
              (get_linear_schedule_with_warmup 0 4) eq_refl eq_refl)
    as (sch' & Hsch & Hlast & Htotal & _).
  exists sch'. split; [exact Hsch|]. split; [rewrite Hlast|rewrite Htotal]; reflexivity.
Defined.

Lemma train_records_epoch_witness :
  exists avg s',
    train toy_texts3 toy_labels3 1 toy_ready = (Returned tt, s')
    /\ train_loss s' = [avg]
    /\ training_stats s' = [ {| er_epoch := 1; er_training_loss := avg |} ].
Proof.
  destruct (train_records_epoch toy_texts3 toy_labels3 1 toy_ready tt
              (get_linear_schedule_with_warmup 0 4) eq_refl eq_refl)
    as (avg & s' & Hrun & Hloss & Hstats & _).
  - vm_compute. discriminate.
  - exists avg, s'. split; [exact Hrun|]. split; [exact Hloss|exact Hstats].
Defined.

Lemma no_batch_raises_zero_division_witness :
  fst (train [] [] 1 toy_ready) = Raised ZeroDivisionError
  /\ fst (eval [] [] 1 0%Q toy_ready) = Raised ZeroDivisionError.
Proof.
  destruct (no_batch_raises_zero_division [] [] 1 0%Q toy_ready tt
              (get_linear_schedule_with_warmup 0 4) eq_refl eq_refl eq_refl)
    as ((H1 & _) & (H2 & _)).
  split; [exact H1|exact H2].
Defined.

Lemma train_before_fit_raises_witness :
  fst (train (fst toy_data) (snd toy_data) 1 toy_state) = Raised (AttributeError "step")
  /\ train_loss (snd (train (fst toy_data) (snd toy_data) 1 toy_state)) = [].
Proof.
  destruct (train_before_fit_raises (fst toy_data) (snd toy_data) 1 toy_state eq_refl)
    as (H1 & _ & (_ & H2 & _) & _).
  - vm_compute. discriminate.
  - split; [exact H1|exact H2].
Defined.


Lemma toy_trainable : trainable 512 2 (fst toy_data) (snd toy_data).
Proof. intros r. apply toy_batches_nonempty. discriminate. Qed.



Lemma fit_eval_interval_zero_witness :
  fst (fit toy_data toy_data 2 2 512 (1 # 5) 42 (5 # 100000) (1 # 100000000) 0 toy_state)
    = Raised ZeroDivisionError
  /\ calls (snd (fit toy_data toy_data 2 2 512 (1 # 5) 42 (5 # 100000) (1 # 100000000) 0
                   toy_state))
     = [CallTrain 1].
Proof.
  destruct (fit_eval_interval_zero toy_data toy_data 2 2 512 (1 # 5) 42
              (5 # 100000) (1 # 100000000) toy_state)
    as (H1 & H2 & _).
  - discriminate.
  - lia.
  - exact toy_trainable.
  - split; [exact H1|exact H2].
Defined.




Lemma plot_uses_last_evaluation_witness :
  fst (plot (fun _ labels scores => (labels, scores))
         (snd (eval (fst toy_data) (snd toy_data) 1 0%Q toy_ready)))
    = Returned ([0%Z; 1%Z], [[1%Q; 0%Q]; [1%Q; 0%Q]])
  /\ fst (plot (fun _ labels scores => (labels, scores)) toy_ready)
     = Raised (AttributeError "true_labels").
Proof.
  assert (Hrun : eval (fst toy_data) (snd toy_data) 1 0%Q toy_ready
                 = (Returned tt, snd (eval (fst toy_data) (snd toy_data) 1 0%Q toy_ready))).
  { apply pair_of_fst. vm_compute. reflexivity. }
  destruct (plot_uses_last_evaluation (fun _ labels scores => (labels, scores))
              (fst toy_data) (snd toy_data) 1 0%Q toy_ready _ Hrun) as (H1 & H2).
  split.
  - rewrite H1. vm_compute. reflexivity.
  - rewrite (H2 eq_refl). reflexivity.
Defined.
